(** * modules/auth_tester.py: the Moodle authentication tester

    A shallow embedding of [MoodleAuthTester].  The class talks to the outside
    through four collaborators, none of them code of this repository:
    the [requests] session (network and cookie jar), [BeautifulSoup] (HTML),
    [hashlib.md5] and [urllib.parse]/[json].  They are the variables of the
    section [Tester]; everything else is translated from the Python text.

    Effects are explicit.  Every method is a computation over a [State] that
    holds the session's world, the [_login_attempts] dictionary, the [results]
    dictionary allocated by [run_tests] and a chronological [trace] of
    the [time.sleep] calls and of the requests handed to the session.  A
    computation either returns a value or raises an exception ([Outcome]).
    Calls to the logger have no effect on control flow and are left out. *)

From Stdlib Require Import ZArith Floats Ascii String DecimalString.
From stdpp Require Import gmap strings list.

Open Scope string_scope.

(** ** Python strings

    A [string] stands for a [str], one [ascii] for each of its characters. *)

Module Py.

(** [needle in hay] *)
Fixpoint contains (needle hay : string) : bool :=
  String.prefix needle hay ||
  match hay with
  | EmptyString => false
  | String _ rest => contains needle rest
  end.

(** [s.startswith(p)] *)
Definition startswith (s p : string) : bool := String.prefix p s.

(** [a < b] on [str]: lexicographic on the characters *)
Definition lt (a b : string) : bool := String.ltb a b.

(** [s.rstrip('/')] *)
Fixpoint rstrip_slash (s : string) : string :=
  match s with
  | EmptyString => EmptyString
  | String c rest =>
      match rstrip_slash rest with
      | EmptyString => if Ascii.eqb c "/"%char then EmptyString else String c EmptyString
      | r => String c r
      end
  end.

(** A run of [n] slashes, what [rstrip('/')] takes off. *)
Fixpoint slashes (n : nat) : string :=
  match n with
  | 0 => EmptyString
  | S n' => String "/"%char (slashes n')
  end.

(** [str(n)] for a length *)
Definition str_of_nat (n : nat) : string :=
  NilEmpty.string_of_uint (Nat.to_uint n).

(** truth value of an [Optional[str]]: neither [None] nor empty *)
Definition truthy (o : option string) : bool :=
  match o with
  | Some (String _ _) => true
  | _ => false
  end.

(** [repr] of a one-entry dict of plain strings, as [f"{headers}"] prints it *)
Definition repr_dict1 (k v : string) : string :=
  "{'" +:+ k +:+ "': '" +:+ v +:+ "'}".

End Py.

(** ** Data *)

Inductive Severity := Critical | High | Medium | Info.

(** A finding is a dict with a fixed choice of keys; absent keys are [None]. *)
Record Finding := mkFinding {
  title : string;
  description : string;
  severity : Severity;
  evidence : option string;
  remediation : option string;
  cve : option string;
  cwe : option string;
  references : list string
}.

(** The dict returned by [run_tests]. *)
Record Report := mkReport {
  vulnerabilities : list Finding;
  info : list Finding
}.

(** An entry of [test_credentials]. *)
Record Credentials := mkCredentials {
  cred_username : string;
  cred_password : string;
  cred_description : string
}.

(** An entry of [sql_injection_payloads]. *)
Record Payload := mkPayload {
  payload_username : string;
  payload_password : string;
  payload_type : string
}.

Inductive Method := GET | POST.

(** What is handed to [session.request]: the URL and the keyword arguments
    the tester sets. *)
Record Request := mkRequest {
  req_method : Method;
  req_url : string;
  req_params : list (string * string);
  req_data : list (string * string);
  req_headers : list (string * string);
  req_timeout : Z;
  req_verify : option bool
}.

(** The parts of a [requests.Response] the tester reads. *)
Record Response := mkResponse {
  status_code : Z;
  text : string;
  url : string
}.

(** [bool(response)] is [response.ok]: false exactly for 4xx and 5xx. *)
Definition ok (r : Response) : bool :=
  negb ((400 <=? status_code r)%Z && (status_code r <? 600)%Z).

(** Truth value of an [Optional[Response]]. *)
Definition responded (o : option Response) : bool :=
  match o with
  | Some r => ok r
  | None => false
  end.

(** Exceptions (instances of [Exception]), each with its [str(e)]: the
    three that [_safe_request] names, which are the failures of the
    transport, and any other. *)
Inductive Exn :=
| Timeout (msg : string)
| ConnectionError (msg : string)
| RequestException (msg : string)
| OtherException (msg : string).

Definition str_of_exn (e : Exn) : string :=
  match e with
  | Timeout m | ConnectionError m | RequestException m | OtherException m => m
  end.

Inductive Event :=
| Sleep (seconds : float)
| Sent (r : Request).

Definition is_request (e : Event) : bool :=
  match e with
  | Sent _ => true
  | Sleep _ => false
  end.

(** The attributes set by [__init__] and [set_version_info] that the tests read. *)
Record Tester := mkTester {
  target_url : string;
  username : option string;
  password : option string;
  timeout : Z;
  delay : float;
  verify_ssl : bool;
  version_info : option (gmap string string)
}.

(** [__init__]: the proxy, cookies and headers go to the session, which is
    part of the world below. *)
Definition init (target : string) (user pass : option string) (tmo : Z)
    (dly : float) (verify : bool) : Tester :=
  {| target_url := Py.rstrip_slash target;
     username := user;
     password := pass;
     timeout := tmo;
     delay := dly;
     verify_ssl := verify;
     version_info := None |}.

Definition set_version_info (self : Tester) (vi : gmap string string) : Tester :=
  {| target_url := target_url self;
     username := username self;
     password := password self;
     timeout := timeout self;
     delay := delay self;
     verify_ssl := verify_ssl self;
     version_info := Some vi |}.

Definition _max_attempts_per_account : nat := 3.

Definition test_credentials : list Credentials :=
  [ mkCredentials "admin" "admin" "default admin credentials";
    mkCredentials "admin" "password" "simple admin password";
    mkCredentials "admin" "Password123" "common admin password";
    mkCredentials "admin" "moodle" "product name as password";
    mkCredentials "guest" "" "empty guest password";
    mkCredentials "admin" "changeme" "temporary default password" ].

Definition sql_injection_payloads : list Payload :=
  [ mkPayload "admin' --" "anything" "comment";
    mkPayload "admin' #" "anything" "comment";
    mkPayload "admin'/*" "anything" "comment";
    mkPayload "admin' OR '1'='1' --" "anything" "or_condition";
    mkPayload "' OR '1'='1' --" "anything" "or_condition";
    mkPayload "' OR 1=1 --" "anything" "or_condition";
    mkPayload "admin' OR 1=1 #" "anything" "or_condition";
    mkPayload "admin'/**/OR/**/1=1/**/--" "anything" "obfuscation";
    mkPayload "admin'%20OR%201=1%20--" "anything" "obfuscation";
    mkPayload "' UNION SELECT 'admin','password' --" "anything" "union" ].

(** ** Scripted sessions

    Stand-ins for the collaborators, used to run the tester on concrete
    inputs.  The world of a scripted session is the list of the requests made
    so far; a [Server] answers a request in view of it. *)

Module Script.

Definition World : Type := list Request.

Definition Server : Type := World -> Request -> Response + Exn.

Definition request (srv : Server) (w : World) (r : Request)
  : World * (Response + Exn) :=
  ((w ++ [r])%list, srv w r).

(** No cookie at all. *)
Definition no_cookies (w : World) : gmap string string := ∅.

(** A stand-in for the digest: one identifier per username. *)
Definition digest (user : string) : string := "md5:" +:+ user.

(** What follows the first occurrence of [marker] in [hay]. *)
Fixpoint after (marker hay : string) : option string :=
  if String.prefix marker hay
  then Some (String.substring (String.length marker)
                              (String.length hay - String.length marker) hay)
  else match hay with
       | EmptyString => None
       | String _ rest => after marker rest
       end.

(** Pages of scripted servers write an input field as [<input NAME=VALUE],
    the value running to the end of the page. *)
Definition find_input (html name : string) : option (gmap string string) :=
  (fun v => {[ "value" := v ]}) <$> after ("<input " +:+ name +:+ "=") html.

Definition parse_qs_query (u : string) : gmap string (list string) :=
  match after "?state=" u with
  | Some v => {[ "state" := [v] ]}
  | None => ∅
  end.

Definition quote_json_state (wantsurl : string) : string := "forged:" +:+ wantsurl.

Definition base : string := "http://moodle.test".

Definition page (body : string) (r : Request) : Response + Exn :=
  inl (mkResponse 200 body (req_url r)).

Definition not_found (r : Request) : Response + Exn :=
  inl (mkResponse 404 "Not Found" (req_url r)).

(** Every request times out. *)
Definition unreachable : Server :=
  fun _ _ => inr (Timeout "timed out").

(** The form field [name] of a posted request. *)
Definition field (name : string) (r : Request) : string :=
  default "" (snd <$> List.find (fun kv => String.eqb (fst kv) name) (req_data r)).

(** Asking for the OAuth2 page raises [e]; the login page is missing; the
    admin page opens to any request that brings a header of its own. *)
Definition oauth_raising (e : Exn) : Server :=
  fun _ r =>
    if String.eqb (req_url r) (base +:+ "/auth/oauth2/login.php")
    then inr e
    else if String.eqb (req_url r) (base +:+ "/admin/index.php")
    then match req_headers r with
         | [] => not_found r
         | _ :: _ => page "Site administration" r
         end
    else not_found r.

(** The OAuth2 page refuses the connection. *)
Definition oauth_refused : Server :=
  oauth_raising (ConnectionError "connection refused").

(** The same site with the OAuth2 page merely missing. *)
Definition oauth_missing : Server :=
  fun w r =>
    if String.eqb (req_url r) (base +:+ "/auth/oauth2/login.php")
    then not_found r
    else oauth_refused w r.

(** A site whose only working account is admin/moodle. *)
Definition only_admin_moodle : Server :=
  fun _ r =>
    if String.eqb (req_url r) (base +:+ "/login/index.php") then
      match req_method r with
      | GET => page "Log in to the site" r
      | POST =>
          if String.eqb (field "username" r) "admin"
             && String.eqb (field "password" r) "moodle"
          then inl (mkResponse 200 "Dashboard" (base +:+ "/my/"))
          else page "Invalid login, please try again" r
      end
    else not_found r.

(** A site with OAuth2 switched on and nothing else. *)
Definition oauth_enabled : Server :=
  fun _ r =>
    if String.eqb (req_url r) (base +:+ "/auth/oauth2/login.php")
    then page "Log in with an OAuth 2 service" r
    else not_found r.

(** A login page whose body is [body]; a posted login is answered with
    [rejection]. *)
Definition login_page (body rejection : string) : Server :=
  fun _ r =>
    if String.eqb (req_url r) (base +:+ "/login/index.php") then
      match req_method r with
      | GET => page body r
      | POST => page rejection r
      end
    else not_found r.

(** A site that lets every posted login through to the dashboard. *)
Definition open_door : Server :=
  fun _ r =>
    if String.eqb (req_url r) (base +:+ "/login/index.php") then
      match req_method r with
      | GET => page "Log in to the site" r
      | POST => inl (mkResponse 200 "Dashboard" (base +:+ "/my/"))
      end
    else not_found r.

(** A jar whose session cookie never changes. *)
Definition fixed_cookie (w : World) : gmap string string :=
  {[ "MoodleSession" := "abc123" ]}.

(** A jar whose session cookie is renewed by the first POST. *)
Definition renewed_cookie (w : World) : gmap string string :=
  if existsb (fun r => match req_method r with POST => true | GET => false end) w
  then {[ "MoodleSession" := "xyz789" ]}
  else {[ "MoodleSession" := "abc123" ]}.

(** The first request is answered with the OAuth2 page; every later one
    times out. *)
Definition oauth_then_down : Server :=
  fun w r =>
    match w with
    | [] => page "Log in with an OAuth 2 service" r
    | _ :: _ => inr (Timeout "timed out")
    end.

(** A site that shows the reset page and answers every posted form with the
    generic message, a telltale phrase and the host it was asked under. *)
Definition generic_reset : Server :=
  fun _ r =>
    match req_method r with
    | POST =>
        page ("If the username and email address match, a mail was sent. "
              +:+ "No users have that username. See "
              +:+ default "moodle.test" (snd <$> List.find (fun kv => String.eqb (fst kv) "Host")
                                                         (req_headers r)))
             r
    | GET =>
        if String.eqb (req_url r) (base +:+ "/login/forgot_password.php")
        then page "Reset password" r
        else not_found r
    end.

(** A site that answers by the request alone, and opens the admin page to
    requests with an [X-Forwarded-Host] header. *)
Definition trusts_forwarded_host (r : Request) : Response :=
  if existsb (fun kv => String.eqb (fst kv) "X-Forwarded-Host") (req_headers r)
  then mkResponse 200 "Site administration" (req_url r)
  else mkResponse 403 "Forbidden" (req_url r).

(** Testers for the site at [base]. *)
Definition anonymous (dly : float) : Tester :=
  init (base +:+ "/") None None 30 dly true.

Definition with_credentials (user pass : string) : Tester :=
  init (base +:+ "/") (Some user) (Some pass) 30 0 true.

Definition with_version (version : string) : Tester :=
  set_version_info (anonymous 0) {[ "version" := version ]}.

End Script.

(** What a call comes to: a value, or an exception on its way up. *)
Inductive Outcome (A : Type) :=
| Ok (a : A)
| Raise (e : Exn).
Arguments Ok {A} a.
Arguments Raise {A} e.

(** ** The tester over an arbitrary session *)

Section Tester.

(** The [requests.Session] with the network behind it.  [session_request]
    is one call of [session.request]: it answers or raises, and moves the
    world on.  [session_cookies] is the jar [session.cookies] as it stands. *)
Variable World : Type.
Variable session_request : World -> Request -> World * (Response + Exn).
Variable session_cookies : World -> gmap string string.

(** [hashlib.md5(s.encode()).hexdigest()] *)
Variable md5_hexdigest : string -> string.

(** [BeautifulSoup(html, 'html.parser').find("input", {"name": name})]:
    the attributes of the first such tag, if there is one. *)
Variable find_input : string -> string -> option (gmap string string).

(** [urllib.parse.parse_qs(urllib.parse.urlparse(u).query)] *)
Variable parse_qs_query : string -> gmap string (list string).

(** [urllib.parse.quote(json.dumps(d))] for the forged state whose
    ["wantsurl"] is the argument. *)
Variable quote_json_state : string -> string.

Record State := mkState {
  world : World;
  _login_attempts : gmap string nat;
  results : Report;
  trace : list Event
}.

Definition set_world (w : World) (s : State) : State :=
  mkState w (_login_attempts s) (results s) (trace s).
Definition set_login_attempts (m : gmap string nat) (s : State) : State :=
  mkState (world s) m (results s) (trace s).
Definition set_results (r : Report) (s : State) : State :=
  mkState (world s) (_login_attempts s) r (trace s).
Definition log_event (e : Event) (s : State) : State :=
  mkState (world s) (_login_attempts s) (results s) (trace s ++ [e]).

(** A fresh instance: no attempt recorded, nothing sent yet. *)
Definition fresh (w : World) : State :=
  mkState w ∅ (mkReport [] []) [].

(** *** Computations that may raise *)

Definition M (A : Type) : Type := State -> State * Outcome A.

Definition ret {A} (a : A) : M A := fun s => (s, Ok a).

Definition bind {A B} (c : M A) (k : A -> M B) : M B :=
  fun s =>
    match c s with
    | (s', Ok a) => k a s'
    | (s', Raise e) => (s', Raise e)
    end.

(** [try: c  except Exception as e: h e] *)
Definition try_except {A} (c : M A) (h : Exn -> M A) : M A :=
  fun s =>
    match c s with
    | (s', Ok a) => (s', Ok a)
    | (s', Raise e) => h e s'
    end.

Definition get {A} (f : State -> A) : M A := fun s => (s, Ok (f s)).
Definition modify (f : State -> State) : M unit := fun s => (f s, Ok tt).

Notation "x <- c ;; k" := (bind c (fun x => k))
  (at level 100, c at next level, right associativity).
Notation "c ;; k" := (bind c (fun _ => k))
  (at level 100, right associativity).

Variable self : Tester.

(** [time.sleep(seconds)] *)
Definition sleep (seconds : float) : M unit := modify (log_event (Sleep seconds)).

(** [if self.delay > 0: time.sleep(self.delay)] *)
Definition pause : M unit :=
  if (0 <? delay self)%float then sleep (delay self) else ret tt.

(** One call into the session; the request is logged whether it is answered
    or raises. *)
Definition session_call (r : Request) : M Response :=
  fun s =>
    let (w, o) := session_request (world s) r in
    let s' := log_event (Sent r) (set_world w s) in
    match o with
    | inl resp => (s', Ok resp)
    | inr e => (s', Raise e)
    end.

(** [self.session.get(url, params=, headers=, timeout=self.timeout)] *)
Definition session_get (u : string) (params headers : list (string * string))
  : M Response :=
  session_call (mkRequest GET u params [] headers (timeout self) None).

(** [self.session.post(url, data=, headers=, timeout=self.timeout)] *)
Definition session_post (u : string) (data headers : list (string * string))
  : M Response :=
  session_call (mkRequest POST u [] data headers (timeout self) None).

(** [_safe_request]: the delay, then the request with the [timeout] and
    [verify] defaults; every exception ends in [return None]. *)
Definition _safe_request (method : Method) (u : string)
    (data : list (string * string)) : M (option Response) :=
  pause ;;
  try_except
    (response <- session_call
       (mkRequest method u [] data [] (timeout self) (Some (verify_ssl self))) ;;
     ret (Some response))
    (fun _ => ret None).

(** The [logintoken] read off a page: [token_input.get("value", "")] when
    the field is there, [""] otherwise. *)
Definition logintoken_of (html : string) : string :=
  match find_input html "logintoken" with
  | Some attrs => default "" (attrs !! "value")
  | None => ""
  end.

Definition login_url : string := target_url self +:+ "/login/index.php".
Definition admin_url : string := target_url self +:+ "/admin/index.php".

Definition login_data (user pass token : string) : list (string * string) :=
  [("username", user); ("password", pass); ("logintoken", token)].

(** The part of [test_authentication] inside its [try]. *)
Definition test_authentication_try (user pass : string) : M bool :=
  response <- _safe_request GET login_url [] ;;
  match response with
  | Some page =>
      if negb (ok page) || negb (status_code page =? 200)%Z then ret false
      else
        let logintoken := logintoken_of (text page) in
        pause ;;
        response <- _safe_request POST login_url (login_data user pass logintoken) ;;
        match response with
        | Some r =>
            if negb (ok r) then ret false
            else if Py.contains "loginerrors" (text r)
                    || Py.contains "Invalid login" (text r) then ret false
            else if Py.contains "/my/" (url r)
                    || Py.contains "Dashboard" (text r)
                    || Py.contains "My courses" (text r) then ret true
            else
              admin_response <- _safe_request GET admin_url [] ;;
              match admin_response with
              | Some ar =>
                  ret (ok ar && (status_code ar =? 200)%Z
                       && Py.contains "Site administration" (text ar))
              | None => ret false
              end
        | None => ret false
        end
  | None => ret false
  end.

Definition attempts_of (account_hash : string) (s : State) : nat :=
  default 0 (_login_attempts s !! account_hash).

Definition test_authentication (user pass : string) : M bool :=
  if String.eqb user "" then ret false
  else
    let account_hash := md5_hexdigest user in
    n <- get (attempts_of account_hash) ;;
    if (_max_attempts_per_account <=? n)%nat then ret false
    else
      modify (fun s => set_login_attempts
                         (<[account_hash := n + 1]> (_login_attempts s)) s) ;;
      try_except (test_authentication_try user pass) (fun _ => ret false).

(** *** The checks *)

Fixpoint test_common_credentials_from (l : list Credentials)
  : M (option Credentials) :=
  match l with
  | [] => ret None
  | creds :: rest =>
      pause ;;
      hit <- test_authentication (cred_username creds) (cred_password creds) ;;
      if hit then ret (Some creds) else test_common_credentials_from rest
  end.

Definition test_common_credentials : M (option Credentials) :=
  test_common_credentials_from test_credentials.

Definition oauth_url : string := target_url self +:+ "/auth/oauth2/login.php".

Definition oauth2_references : list string :=
  ["https://moodle.org/mod/forum/discuss.php?d=447992"].

Definition oauth2_version_finding (version : string) : Finding :=
  {| title := "OAuth2 Authentication Bypass Vulnerability";
     description :=
       "The Moodle installation appears to be running a version vulnerable to CVE-2023-46806. "
       +:+ "This vulnerability allows attackers to bypass authentication via the OAuth2 module.";
     severity := Critical;
     cve := Some "CVE-2023-46806";
     evidence := Some ("Moodle version " +:+ version
                       +:+ " detected, which is in the vulnerable range. OAuth2 is enabled.");
     remediation := Some "Update to Moodle versions 4.2.2, 4.1.5, 4.0.11 or later.";
     cwe := None;
     references := oauth2_references |}.

Definition oauth2_exploit_finding : Finding :=
  {| title := "OAuth2 Authentication Bypass Vulnerability";
     description :=
       "The Moodle installation is vulnerable to an OAuth2 authentication bypass vulnerability. "
       +:+ "This vulnerability allows attackers to bypass authentication and gain administrative access.";
     severity := Critical;
     cve := Some "CVE-2023-46806";
     evidence := Some "Successfully bypassed authentication using OAuth2 state parameter manipulation.";
     remediation := Some "Update to Moodle versions 4.2.2, 4.1.5, 4.0.11 or later.";
     cwe := None;
     references := oauth2_references |}.

(** The [if]/[elif] chain that sets [vulnerable]. *)
Definition vulnerable_version (version : string) : bool :=
  if Py.startswith version "4.2" && Py.lt version "4.2.2" then true
  else if Py.startswith version "4.1" && Py.lt version "4.1.5" then true
  else if Py.startswith version "4.0" && Py.lt version "4.0.11" then true
  else false.

(** [self.version_info and self.version_info.get("version")], when true. *)
Definition supplied_version : option string :=
  match version_info self with
  | Some vi => if Py.truthy (vi !! "version") then vi !! "version" else None
  | None => None
  end.

Definition callback_urls : list string :=
  [ target_url self +:+ "/auth/oauth2/callback.php";
    target_url self +:+ "/admin/tool/oauth2/login.php" ].

Fixpoint oauth2_replay (malicious_state : string) (urls : list string)
  : M (option Finding) :=
  match urls with
  | [] => ret None
  | callback_url :: rest =>
      pause ;;
      session_get callback_url [("state", malicious_state); ("code", "BYPASS")] [] ;;
      admin_response <- session_get admin_url [] [] ;;
      if (status_code admin_response =? 200)%Z
         && Py.contains "Site administration" (text admin_response)
      then ret (Some oauth2_exploit_finding)
      else oauth2_replay malicious_state rest
  end.

(** The part of [test_oauth2_bypass] inside its [try]. *)
Definition oauth2_exploit : M (option Finding) :=
  response <- session_get oauth_url
    [("id", "1"); ("wantsurl", target_url self +:+ "/admin/"); ("sesskey", "random")] [] ;;
  if Py.contains "state=" (url response) then
    match parse_qs_query (url response) !! "state" with
    | Some _ =>
        oauth2_replay (quote_json_state (target_url self +:+ "/admin/")) callback_urls
    | None => ret None
    end
  else ret None.

Definition test_oauth2_bypass : M (option Finding) :=
  response <- session_get oauth_url [] [] ;;
  if negb (status_code response =? 200)%Z || negb (Py.contains "OAuth 2" (text response))
  then ret None
  else
    match supplied_version with
    | Some version =>
        if vulnerable_version version then ret (Some (oauth2_version_finding version))
        else try_except oauth2_exploit (fun _ => ret None)
    | None => try_except oauth2_exploit (fun _ => ret None)
    end.

Definition sql_injection_finding (payload : Payload) : Finding :=
  {| title := "SQL Injection Authentication Bypass";
     description := "The Moodle login form is vulnerable to SQL injection, allowing attackers to bypass authentication.";
     severity := Critical;
     evidence := Some ("Successfully authenticated using SQL injection payload: "
                       +:+ payload_username payload);
     remediation := Some "Update to the latest Moodle version and ensure proper input validation is in place.";
     cve := None; cwe := None; references := [] |}.

Fixpoint test_sql_injection_from (l : list Payload) : M (option Finding) :=
  match l with
  | [] => ret None
  | payload :: rest =>
      pause ;;
      hit <- test_authentication (payload_username payload) (payload_password payload) ;;
      if hit then ret (Some (sql_injection_finding payload))
      else test_sql_injection_from rest
  end.

Definition test_sql_injection_auth_bypass : M (option Finding) :=
  test_sql_injection_from sql_injection_payloads.

Definition reset_url : string := target_url self +:+ "/login/forgot_password.php".

Definition reset_remediation : string :=
  "Modify the password reset functionality to use generic messages that don't disclose user information.".

Definition too_many_users_finding (user : string) : Finding :=
  {| title := "User Enumeration via Password Reset";
     description := "The password reset functionality discloses information about existing usernames.";
     severity := Medium;
     evidence := Some ("The system indicated multiple users with the same email for username: " +:+ user);
     remediation := Some reset_remediation;
     cve := None; cwe := None; references := [] |}.

Definition no_such_user_finding (user : string) : Finding :=
  {| title := "User Enumeration via Password Reset";
     description := "The password reset functionality allows enumeration of valid usernames.";
     severity := Medium;
     evidence := Some ("The system directly indicated that username '" +:+ user +:+ "' doesn't exist.");
     remediation := Some reset_remediation;
     cve := None; cwe := None; references := [] |}.

Definition reset_host_header_finding : Finding :=
  {| title := "Password Reset Host Header Injection";
     description :=
       "The password reset functionality may be vulnerable to Host header injection, "
       +:+ "which could allow attackers to receive password reset links for other users.";
     severity := High;
     evidence := Some "The system accepted a modified Host header in the password reset request.";
     remediation :=
       Some ("Modify the password reset functionality to use hardcoded URLs rather than ones "
             +:+ "derived from the HTTP Host header.");
     cve := None; cwe := None; references := [] |}.

Definition test_usernames : list string :=
  ["admin"; "administrator"; "root"; "user"; "student"; "teacher"].

(** The loop over [test_usernames]: the finding it returns with, if any. *)
Fixpoint reset_enumeration (logintoken : string) (l : list string)
  : M (option Finding) :=
  match l with
  | [] => ret None
  | user :: rest =>
      pause ;;
      reset_response <- session_post reset_url
        [("username", user); ("logintoken", logintoken)] [] ;;
      if Py.contains "If the username and email address match" (text reset_response)
      then reset_enumeration logintoken rest
      else if Py.contains "We found too many users with this email address" (text reset_response)
      then ret (Some (too_many_users_finding user))
      else if Py.contains "No users have that username" (text reset_response)
      then ret (Some (no_such_user_finding user))
      else reset_enumeration logintoken rest
  end.

Definition test_password_reset_vulnerability : M (option Finding) :=
  response <- session_get reset_url [] [] ;;
  if negb (status_code response =? 200)%Z
     || negb (Py.contains "Reset password" (text response))
  then ret None
  else
    let logintoken := logintoken_of (text response) in
    found <- reset_enumeration logintoken test_usernames ;;
    match found with
    | Some finding => ret (Some finding)
    | None =>
        pause ;;
        reset_response <- session_post reset_url
          [("username", "admin"); ("logintoken", logintoken)]
          [("Host", "attacker.com"); ("X-Forwarded-Host", "attacker.com")] ;;
        if Py.contains "attacker.com" (text reset_response)
        then ret (Some reset_host_header_finding)
        else ret None
    end.

Definition test_headers : list (string * string) :=
  [ ("Host", "localhost");
    ("Host", "127.0.0.1");
    ("X-Forwarded-Host", "localhost");
    ("X-Forwarded-Host", "127.0.0.1");
    ("X-Original-URL", "/admin/index.php");
    ("X-Rewrite-URL", "/admin/index.php") ].

Definition host_header_finding (header : string * string) : Finding :=
  {| title := "Host Header Authentication Bypass";
     description := "The Moodle installation is vulnerable to authentication bypass via Host header manipulation.";
     severity := Critical;
     evidence := Some ("Successfully accessed admin area using modified headers: "
                       +:+ Py.repr_dict1 (fst header) (snd header));
     remediation := Some "Configure the web server to validate Host headers and update Moodle to the latest version.";
     cve := None; cwe := None; references := [] |}.

Fixpoint test_host_header_from (l : list (string * string)) : M (option Finding) :=
  match l with
  | [] => ret None
  | header :: rest =>
      pause ;;
      response <- session_get admin_url [] [header] ;;
      if (status_code response =? 200)%Z
         && Py.contains "Site administration" (text response)
      then ret (Some (host_header_finding header))
      else test_host_header_from rest
  end.

Definition test_host_header_auth_bypass : M (option Finding) :=
  test_host_header_from test_headers.

Definition missing_csrf_finding : Finding :=
  {| title := "Missing CSRF Protection";
     description := "The Moodle login form doesn't include CSRF tokens, making it vulnerable to cross-site request forgery attacks.";
     severity := High;
     evidence := Some "No logintoken field found in the login form.";
     remediation := Some "Update to the latest Moodle version which includes proper CSRF protection.";
     cve := None; cwe := None; references := [] |}.

Definition weak_csrf_finding (token : string) : Finding :=
  {| title := "Weak CSRF Token";
     description := "The Moodle CSRF tokens appear to be too short, potentially making them easier to guess or brute force.";
     severity := Medium;
     evidence := Some ("Login token length is only "
                       +:+ Py.str_of_nat (String.length token) +:+ " characters.");
     remediation := Some "Update to the latest Moodle version which includes stronger CSRF protection.";
     cve := None; cwe := None; references := [] |}.

Definition csrf_bypass_finding : Finding :=
  {| title := "CSRF Protection Bypass";
     description := "The Moodle installation appears to accept empty CSRF tokens, making it vulnerable to cross-site request forgery attacks.";
     severity := High;
     evidence := Some "The system processed a login form with an empty token without reporting a token error.";
     remediation := Some "Update to the latest Moodle version and ensure proper CSRF protection is configured.";
     cve := None; cwe := None; references := [] |}.

Definition test_csrf_token_weaknesses : M (option Finding) :=
  response <- session_get login_url [] [] ;;
  if negb (status_code response =? 200)%Z then ret None
  else
    match find_input (text response) "logintoken" with
    | None => ret (Some missing_csrf_finding)
    | Some token_input =>
        let token := default "" (token_input !! "value") in
        if (String.length token <? 20)%nat then ret (Some (weak_csrf_finding token))
        else
          pause ;;
          empty_token_response <- session_post login_url
            (login_data "admin" "wrongpassword" "") [] ;;
          if Py.contains "username" (text empty_token_response)
             && negb (Py.contains "Invalid token" (text empty_token_response))
          then ret (Some csrf_bypass_finding)
          else ret None
    end.

Definition session_fixation_finding (pre_login_session : string) : Finding :=
  {| title := "Session Fixation Vulnerability";
     description := "The Moodle installation does not change session cookies during login, making it vulnerable to session fixation attacks.";
     severity := High;
     evidence := Some ("Session cookie remains the same before and after login: "
                       +:+ pre_login_session);
     remediation := Some "Update to the latest Moodle version and ensure session regeneration is configured properly.";
     cve := None; cwe := None; references := [] |}.

(** [self.session.cookies.get('MoodleSession')] *)
Definition moodle_session : M (option string) :=
  get (fun s => session_cookies (world s) !! "MoodleSession").

Definition test_session_fixation : M (option Finding) :=
  response <- session_get login_url [] [] ;;
  if negb (status_code response =? 200)%Z then ret None
  else
    cookie <- moodle_session ;;
    match cookie with
    | None => ret None
    | Some pre_login_session =>
        if Py.truthy (username self) && Py.truthy (password self) then
          let logintoken := logintoken_of (text response) in
          pause ;;
          login_response <- session_post login_url
            (login_data (default "" (username self)) (default "" (password self))
                        logintoken) [] ;;
          if Py.contains "/my/" (url login_response)
             || Py.contains "Dashboard" (text login_response)
          then
            post_login_session <- moodle_session ;;
            if decide (Some pre_login_session = post_login_session)
            then ret (Some (session_fixation_finding pre_login_session))
            else ret None
          else ret None
        else ret None
    end.

(** *** [run_tests] *)

Definition note (t d : string) : Finding :=
  {| title := t; description := d; severity := Info;
     evidence := None; remediation := None; cve := None; cwe := None;
     references := [] |}.

Definition successful_authentication_note (user : string) : Finding :=
  note "Successful Authentication"
       ("Successfully authenticated with provided credentials (" +:+ user +:+ ").").

Definition no_vulnerabilities_note : Finding :=
  note "Authentication Security"
       "No authentication vulnerabilities were found during testing.".

Definition testing_error_note (e : Exn) : Finding :=
  note "Authentication Testing Error"
       ("An error occurred during authentication testing: " +:+ str_of_exn e).

Definition weak_credentials_finding (c : Credentials) : Finding :=
  {| title := "Weak Default Credentials";
     description := "The Moodle installation uses common or default credentials: "
                    +:+ cred_username c +:+ ":" +:+ cred_password c;
     severity := Critical;
     evidence := Some ("Successfully authenticated with " +:+ cred_username c +:+ ":"
                       +:+ cred_password c +:+ " (" +:+ cred_description c +:+ ")");
     remediation := Some "Change default credentials and implement a strong password policy.";
     cwe := Some "CWE-521";
     cve := None; references := [] |}.

(** [results["vulnerabilities"].append(f)] and [results["info"].append(f)] *)
Definition append_vulnerability (f : Finding) : M unit :=
  modify (fun s => set_results
    (mkReport (vulnerabilities (results s) ++ [f]) (info (results s))) s).
Definition append_info (f : Finding) : M unit :=
  modify (fun s => set_results
    (mkReport (vulnerabilities (results s)) (info (results s) ++ [f])) s).

(** [if vuln: results["vulnerabilities"].append(vuln)] *)
Definition report_if_found (vuln : option Finding) : M unit :=
  match vuln with
  | Some f => append_vulnerability f
  | None => ret tt
  end.

(** The body of the [try] of [run_tests]. *)
Definition run_tests_try : M unit :=
  (if Py.truthy (username self) && Py.truthy (password self) then
     auth_result <- test_authentication (default "" (username self))
                                        (default "" (password self)) ;;
     if auth_result
     then append_info (successful_authentication_note (default "" (username self)))
     else ret tt
   else ret tt) ;;
  weak_credentials <- test_common_credentials ;;
  report_if_found (weak_credentials_finding <$> weak_credentials) ;;
  oauth_vuln <- test_oauth2_bypass ;;
  report_if_found oauth_vuln ;;
  sql_vuln <- test_sql_injection_auth_bypass ;;
  report_if_found sql_vuln ;;
  reset_vuln <- test_password_reset_vulnerability ;;
  report_if_found reset_vuln ;;
  host_vuln <- test_host_header_auth_bypass ;;
  report_if_found host_vuln ;;
  token_vuln <- test_csrf_token_weaknesses ;;
  report_if_found token_vuln ;;
  session_fix_vuln <- test_session_fixation ;;
  report_if_found session_fix_vuln ;;
  found <- get (fun s => vulnerabilities (results s)) ;;
  match found with
  | [] => append_info no_vulnerabilities_note
  | _ :: _ => ret tt
  end.

Definition run_tests : M Report :=
  modify (set_results (mkReport [] [])) ;;
  try_except run_tests_try (fun e => append_info (testing_error_note e)) ;;
  get results.

(** *** The requests of the checks, by name *)

(** [self.session.get(login_url, timeout=self.timeout)] *)
Definition login_page_request : Request :=
  mkRequest GET login_url [] [] [] (timeout self) None.

(** [self.session.post(login_url, data=login_data, timeout=self.timeout)] *)
Definition login_post_request (user pass token : string) : Request :=
  mkRequest POST login_url [] (login_data user pass token) [] (timeout self) None.

(** [self.session.get(oauth_url, timeout=self.timeout)] *)
Definition oauth_page_request : Request :=
  mkRequest GET oauth_url [] [] [] (timeout self) None.

(** The state once [r] has been handed to the session and the world has
    moved to [w]. *)
Definition sent (r : Request) (w : World) (s : State) : State :=
  log_event (Sent r) (set_world w s).

(** *** What a run leaves in the trace *)

(** An event that login attempts with the credentials in [allowed] may
    leave: a sleep, a page fetched, or the login form posted with one of
    these credentials. *)
Definition login_event (allowed : string -> string -> Prop) (e : Event) : Prop :=
  match e with
  | Sleep _ => True
  | Sent r =>
      match req_method r with
      | GET => True
      | POST => exists user pass token,
                  allowed user pass /\ req_data r = login_data user pass token
      end
  end.

(** The entries of [l] a loop can still try when the account of [user] has
    [budget] attempts left: all entries of other users, and the first
    [budget] entries of [user]. *)
Fixpoint within_budget (user : string) (budget : nat) (l : list Credentials)
  : list Credentials :=
  match l with
  | [] => []
  | creds :: rest =>
      if String.eqb (cred_username creds) user then
        match budget with
        | 0 => within_budget user 0 rest
        | S budget' => creds :: within_budget user budget' rest
        end
      else creds :: within_budget user budget rest
  end.

(** How many entries of [l] are for [user]. *)
Definition entries_of (user : string) (l : list Credentials) : nat :=
  length (List.filter (fun creds => String.eqb (cred_username creds) user) l).

(** One turn of the loop of [test_common_credentials]. *)
Definition attempt (creds : Credentials) : M bool :=
  pause ;; test_authentication (cred_username creds) (cred_password creds).

(** *** Predicates on computations *)

(** [c] leaves the [results] dictionary alone, whether it returns or raises. *)
Definition keeps_results {A} (c : M A) : Prop :=
  forall s, results (fst (c s)) = results s.

(** [c] always returns: no exception leaves it. *)
Definition returns {A} (c : M A) : Prop :=
  forall s, exists s' a, c s = (s', Ok a).

(** [wp c Q E s]: run from [s], [c] either returns [a] in a state [s'] with
    [Q a s'], or raises in a state [s'] with [E s']. *)
Definition wp {A} (c : M A) (Q : A -> State -> Prop) (E : State -> Prop)
    (s : State) : Prop :=
  match c s with
  | (s', Ok a) => Q a s'
  | (s', Raise _) => E s'
  end.

(** No note collected so far says that nothing was found. *)
Definition silent (s : State) : Prop :=
  no_vulnerabilities_note ∉ info (results s).

(** [s'] is [s] with more events, all of them in [P]; same attempts recorded. *)
Definition extends (P : Event -> Prop) (s s' : State) : Prop :=
  _login_attempts s' = _login_attempts s /\
  exists events, trace s' = (trace s ++ events)%list /\ Forall P events.

(** Whatever [c] does, it only adds events in [P] and records no attempt. *)
Definition emits {A} (P : Event -> Prop) (c : M A) : Prop :=
  forall s, extends P s (fst (c s)).

(** The request [_safe_request] hands to the session. *)
Definition safe_request_of (method : Method) (u : string)
    (data : list (string * string)) : Request :=
  mkRequest method u [] data [] (timeout self) (Some (verify_ssl self)).

(** No account has more attempts recorded than the maximum. *)
Definition within_limit (s : State) : Prop :=
  forall h, attempts_of h s <= _max_attempts_per_account.

(** An event as the configuration wants it: a sleep of the configured
    delay, or a request under the target URL with the configured timeout. *)
Definition on_target (e : Event) : Prop :=
  match e with
  | Sleep d => d = delay self
  | Sent r => Py.startswith (req_url r) (target_url self) = true
              /\ req_timeout r = timeout self
  end.

(** [c] only adds events in [P] to the trace, and keeps the attempts within
    the limit, whether it returns or raises. *)
Definition steady {A} (P : Event -> Prop) (c : M A) : Prop :=
  forall s,
    (exists events, trace (fst (c s)) = (trace s ++ events)%list /\ Forall P events)
    /\ (within_limit s -> within_limit (fst (c s))).

(** A finding [c] returns is in [P]. *)
Definition finds (P : Finding -> Prop) (c : M (option Finding)) : Prop :=
  forall s,
    match c s with
    | (_, Ok (Some f)) => P f
    | _ => True
    end.

(** What goes under ["vulnerabilities"]: anything but a note. *)
Definition reportable (f : Finding) : Prop := severity f <> Info.

(** [results] so far: at most [n] findings under ["vulnerabilities"], none
    of them a note, and notes alone under ["info"]. *)
Definition shaped (n : nat) (s : State) : Prop :=
  Forall reportable (vulnerabilities (results s))
  /\ Forall (fun f => severity f = Info) (info (results s))
  /\ length (vulnerabilities (results s)) <= n.

(** ** Properties *)

(** *** The attempt budget *)

Lemma attempts_of_fresh (w : World) (h : string) : attempts_of h (fresh w) = 0.
Proof. unfold attempts_of, fresh. cbn. by rewrite lookup_empty. Qed.

(** The guard at the head of [test_authentication]. *)
Lemma refused (user pass : string) (s : State) :
  user = "" \/ 3 <= attempts_of (md5_hexdigest user) s ->
  test_authentication user pass s = (s, Ok false).
Proof.
  intros [-> | Hfull]; [reflexivity |].
  unfold test_authentication.
  destruct (String.eqb user "") eqn:Huser; [reflexivity |].
  unfold bind, get.
  destruct (Nat.leb_spec _max_attempts_per_account (attempts_of (md5_hexdigest user) s))
    as [_ | Hlt]; [reflexivity |].
  unfold _max_attempts_per_account in Hlt. lia.
Qed.

(** C4. Once three attempts are recorded for the account of a username, or
    when the username is empty, [test_authentication] returns [False]
    whatever the password, and leaves the state as it found it: nothing was
    handed to the session, no sleep was made, no attempt was recorded. *)
Theorem test_authentication_refuses (user pass : string) (s : State) :
  user = "" \/ 3 <= attempts_of (md5_hexdigest user) s ->
  test_authentication user pass s = (s, Ok false)
  /\ trace (fst (test_authentication user pass s)) = trace s.
Proof. intros H. by rewrite (refused user pass s H). Qed.

(** *** How computations compose *)

Lemma keeps_ret {A} (a : A) : keeps_results (ret a).
Proof. by intros s. Qed.

Lemma keeps_get {A} (f : State -> A) : keeps_results (get f).
Proof. by intros s. Qed.

Lemma keeps_bind {A B} (c : M A) (k : A -> M B) :
  keeps_results c -> (forall a, keeps_results (k a)) -> keeps_results (bind c k).
Proof.
  intros Hc Hk s. unfold bind. specialize (Hc s).
  destruct (c s) as [s1 [a | e]]; cbn in *; [| done].
  by rewrite Hk.
Qed.

Lemma keeps_try {A} (c : M A) (h : Exn -> M A) :
  keeps_results c -> (forall e, keeps_results (h e)) -> keeps_results (try_except c h).
Proof.
  intros Hc Hh s. unfold try_except. specialize (Hc s).
  destruct (c s) as [s1 [a | e]]; cbn in *; [done |].
  by rewrite Hh.
Qed.

Lemma keeps_pause : keeps_results pause.
Proof. intros s. unfold pause. by destruct (0 <? delay self)%float. Qed.

Lemma keeps_session_call (r : Request) : keeps_results (session_call r).
Proof.
  intros s. unfold session_call.
  by destruct (session_request (world s) r) as [w [resp | e]].
Qed.

Lemma keeps_set_login_attempts (f : State -> gmap string nat) :
  keeps_results (modify (fun s => set_login_attempts (f s) s)).
Proof. by intros s. Qed.

Lemma returns_ret {A} (a : A) : returns (ret a).
Proof. intros s. by exists s, a. Qed.

Lemma returns_bind {A B} (c : M A) (k : A -> M B) :
  returns c -> (forall a, returns (k a)) -> returns (bind c k).
Proof.
  intros Hc Hk s. unfold bind.
  destruct (Hc s) as (s1 & a & ->). apply Hk.
Qed.

Lemma returns_try {A} (c : M A) (h : Exn -> M A) :
  (forall e, returns (h e)) -> returns (try_except c h).
Proof.
  intros Hh s. unfold try_except.
  destruct (c s) as [s1 [a | e]]; [by exists s1, a | apply Hh].
Qed.

Lemma returns_pause : returns pause.
Proof.
  intros s. unfold pause.
  destruct (0 <? delay self)%float; [| by exists s, tt].
  by eexists _, tt.
Qed.

Lemma returns_modify (f : State -> State) : returns (modify f).
Proof. intros s. by exists (f s), tt. Qed.

Lemma returns_get {A} (f : State -> A) : returns (get f).
Proof. intros s. by exists s, (f s). Qed.

(** The docstring of [_safe_request]: a response, or [None] if the request
    failed. *)
Lemma returns_safe_request method u data : returns (_safe_request method u data).
Proof.
  unfold _safe_request.
  apply returns_bind; [apply returns_pause | intros _].
  apply returns_try. intros e. apply returns_ret.
Qed.

Lemma returns_test_authentication user pass : returns (test_authentication user pass).
Proof.
  unfold test_authentication.
  destruct (String.eqb user ""); [apply returns_ret |].
  apply returns_bind; [apply returns_get | intros n].
  destruct (_max_attempts_per_account <=? n)%nat; [apply returns_ret |].
  apply returns_bind; [apply returns_modify | intros _].
  apply returns_try. intros e. apply returns_ret.
Qed.

Ltac keeps_step :=
  lazymatch goal with
  | |- keeps_results (bind _ _) => apply keeps_bind; [| intros ?]
  | |- keeps_results (try_except _ _) => apply keeps_try; [| intros ?]
  | |- keeps_results (ret _) => apply keeps_ret
  | |- keeps_results (get _) => apply keeps_get
  | |- keeps_results pause => apply keeps_pause
  | |- keeps_results (session_call _) => apply keeps_session_call
  | |- keeps_results (session_get _ _ _) => apply keeps_session_call
  | |- keeps_results (session_post _ _ _) => apply keeps_session_call
  | |- keeps_results (modify (fun s => set_login_attempts _ s)) =>
      apply keeps_set_login_attempts
  | |- keeps_results (match ?x with _ => _ end) => destruct x
  end.

Ltac keeps := repeat keeps_step.

Lemma keeps_safe_request method u data : keeps_results (_safe_request method u data).
Proof. unfold _safe_request. keeps. Qed.

Lemma keeps_test_authentication user pass :
  keeps_results (test_authentication user pass).
Proof.
  unfold test_authentication, test_authentication_try.
  repeat first [keeps_step | apply keeps_safe_request].
Qed.

(** *** The checks leave [results] to [run_tests] *)

Lemma keeps_test_common_credentials : keeps_results test_common_credentials.
Proof.
  unfold test_common_credentials.
  induction test_credentials as [| creds rest IH]; cbn [test_common_credentials_from].
  - keeps.
  - repeat first [apply keeps_test_authentication | apply IH | keeps_step].
Qed.

Lemma keeps_oauth2_replay state urls : keeps_results (oauth2_replay state urls).
Proof.
  induction urls as [| callback_url rest IH]; cbn [oauth2_replay].
  - keeps.
  - repeat first [apply IH | keeps_step].
Qed.

Lemma keeps_test_oauth2_bypass : keeps_results test_oauth2_bypass.
Proof.
  unfold test_oauth2_bypass, oauth2_exploit.
  repeat first [apply keeps_oauth2_replay | keeps_step].
Qed.

Lemma keeps_test_sql_injection_auth_bypass :
  keeps_results test_sql_injection_auth_bypass.
Proof.
  unfold test_sql_injection_auth_bypass.
  induction sql_injection_payloads as [| payload rest IH]; cbn [test_sql_injection_from].
  - keeps.
  - repeat first [apply keeps_test_authentication | apply IH | keeps_step].
Qed.

Lemma keeps_reset_enumeration token l : keeps_results (reset_enumeration token l).
Proof.
  induction l as [| user rest IH]; cbn [reset_enumeration].
  - keeps.
  - repeat first [apply IH | keeps_step].
Qed.

Lemma keeps_test_password_reset_vulnerability :
  keeps_results test_password_reset_vulnerability.
Proof.
  unfold test_password_reset_vulnerability.
  repeat first [apply keeps_reset_enumeration | keeps_step].
Qed.

Lemma keeps_test_host_header_auth_bypass : keeps_results test_host_header_auth_bypass.
Proof.
  unfold test_host_header_auth_bypass.
  induction test_headers as [| header rest IH]; cbn [test_host_header_from].
  - keeps.
  - repeat first [apply IH | keeps_step].
Qed.

Lemma keeps_test_csrf_token_weaknesses : keeps_results test_csrf_token_weaknesses.
Proof. unfold test_csrf_token_weaknesses. keeps. Qed.

Lemma keeps_test_session_fixation : keeps_results test_session_fixation.
Proof. unfold test_session_fixation, moodle_session. keeps. Qed.

(** *** Assertions on the two ways out *)

Lemma wp_seq {A B} (c : M A) (k : A -> M B) (I : State -> Prop) Q E s :
  wp c (fun _ => I) E s ->
  (forall a s', I s' -> wp (k a) Q E s') ->
  wp (bind c k) Q E s.
Proof.
  unfold wp, bind. intros Hc Hk.
  destruct (c s) as [s1 [a | e]]; [by apply Hk | done].
Qed.

Lemma wp_keeps {A} (c : M A) (I : State -> Prop) s :
  keeps_results c ->
  (forall s', results s' = results s -> I s') ->
  wp c (fun _ => I) I s.
Proof.
  intros Hc HI. unfold wp. specialize (Hc s).
  destruct (c s) as [s1 [a | e]]; by apply HI.
Qed.

(** *** What [run_tests] returns *)

Lemma silent_keeps {A} (c : M A) s :
  keeps_results c -> silent s -> wp c (fun _ => silent) silent s.
Proof.
  intros Hc Hs. apply wp_keeps; [done |].
  intros s' Heq. unfold silent. by rewrite Heq.
Qed.

Lemma silent_report_if_found vuln s :
  silent s -> wp (report_if_found vuln) (fun _ => silent) silent s.
Proof. intros Hs. by destruct vuln. Qed.

Lemma silent_provided_credentials s :
  silent s ->
  wp (if Py.truthy (username self) && Py.truthy (password self) then
        auth_result <- test_authentication (default "" (username self))
                                           (default "" (password self)) ;;
        if auth_result
        then append_info (successful_authentication_note (default "" (username self)))
        else ret tt
      else ret tt)
     (fun _ => silent) silent s.
Proof.
  intros Hs. destruct (Py.truthy (username self) && Py.truthy (password self)); [| done].
  eapply wp_seq; [apply silent_keeps, Hs; apply keeps_test_authentication |].
  intros [|] s1 Hs1; [| done].
  unfold wp, append_info, modify, silent in *. cbn.
  rewrite elem_of_app, list_elem_of_singleton. intros [Hin | Heq]; [done |].
  discriminate Heq.
Qed.

(** The [try] of [run_tests] appends the note that nothing was found last,
    and only when it got that far. *)
Lemma run_tests_try_notes s :
  silent s ->
  wp run_tests_try
     (fun _ s' =>
        vulnerabilities (results s') = [] ->
        exists notes, info (results s') = (notes ++ [no_vulnerabilities_note])%list
                      /\ no_vulnerabilities_note ∉ notes)
     silent s.
Proof.
  intros Hs. unfold run_tests_try.
  eapply wp_seq; [by apply silent_provided_credentials |]. clear s Hs; intros _ s Hs.
  eapply wp_seq; [apply silent_keeps, Hs; apply keeps_test_common_credentials |].
  clear s Hs; intros weak s Hs.
  eapply wp_seq; [by apply silent_report_if_found |]. clear s Hs; intros _ s Hs.
  eapply wp_seq; [apply silent_keeps, Hs; apply keeps_test_oauth2_bypass |].
  clear s Hs; intros vuln s Hs.
  eapply wp_seq; [by apply silent_report_if_found |]. clear s Hs vuln; intros _ s Hs.
  eapply wp_seq; [apply silent_keeps, Hs; apply keeps_test_sql_injection_auth_bypass |].
  clear s Hs; intros vuln s Hs.
  eapply wp_seq; [by apply silent_report_if_found |]. clear s Hs vuln; intros _ s Hs.
  eapply wp_seq; [apply silent_keeps, Hs; apply keeps_test_password_reset_vulnerability |].
  clear s Hs; intros vuln s Hs.
  eapply wp_seq; [by apply silent_report_if_found |]. clear s Hs vuln; intros _ s Hs.
  eapply wp_seq; [apply silent_keeps, Hs; apply keeps_test_host_header_auth_bypass |].
  clear s Hs; intros vuln s Hs.
  eapply wp_seq; [by apply silent_report_if_found |]. clear s Hs vuln; intros _ s Hs.
  eapply wp_seq; [apply silent_keeps, Hs; apply keeps_test_csrf_token_weaknesses |].
  clear s Hs; intros vuln s Hs.
  eapply wp_seq; [by apply silent_report_if_found |]. clear s Hs vuln; intros _ s Hs.
  eapply wp_seq; [apply silent_keeps, Hs; apply keeps_test_session_fixation |].
  clear s Hs; intros vuln s Hs.
  eapply wp_seq; [by apply silent_report_if_found |]. clear s Hs vuln; intros _ s Hs.
  unfold wp, bind, get.
  destruct (vulnerabilities (results s)) as [| v vs] eqn:Hv; cbn.
  - intros _. by exists (info (results s)).
  - by rewrite Hv.
Qed.

(** C1. [run_tests] returns a report whatever the session does, and never
    raises: an exception that leaves the [try] is turned into the closing
    note of [info], added to what had been collected when it was raised. *)
Theorem run_tests_never_raises (s : State) :
  exists s' report,
    run_tests s = (s', Ok report) /\
    forall s1 e,
      run_tests_try (set_results (mkReport [] []) s) = (s1, Raise e) ->
      vulnerabilities report = vulnerabilities (results s1) /\
      info report = (info (results s1) ++ [testing_error_note e])%list.
Proof.
  unfold run_tests, bind, modify, try_except, get, append_info.
  destruct (run_tests_try (set_results (mkReport [] []) s)) as [s1 [[] | e]] eqn:Hrun;
    cbn; eexists _, _; (split; [reflexivity |]).
  - intros s1' e' Heq. discriminate Heq.
  - intros s1' e' Heq. by simplify_eq.
Qed.

(** C3, as the code has it.  When the [try] of [run_tests] runs to its end
    and no vulnerability was collected, [info] ends with the note that
    nothing was found, and holds it once.  When an exception cut the [try]
    short, [info] ends with the error note and holds no such note. *)
Theorem run_tests_nothing_found_note (s : State) :
  exists s' report,
    run_tests s = (s', Ok report) /\
    match run_tests_try (set_results (mkReport [] []) s) with
    | (_, Ok _) =>
        vulnerabilities report = [] ->
        exists notes, info report = (notes ++ [no_vulnerabilities_note])%list
                      /\ no_vulnerabilities_note ∉ notes
    | (_, Raise e) =>
        (exists notes, info report = (notes ++ [testing_error_note e])%list)
        /\ no_vulnerabilities_note ∉ info report
    end.
Proof.
  assert (Hinit : silent (set_results (mkReport [] []) s)).
  { unfold silent. cbn. apply not_elem_of_nil. }
  pose proof (run_tests_try_notes _ Hinit) as Hwp. unfold wp in Hwp.
  unfold run_tests, bind, modify, try_except, get, append_info.
  destruct (run_tests_try (set_results (mkReport [] []) s)) as [s1 [[] | e]];
    cbn; eexists _, _; (split; [reflexivity |]).
  - exact Hwp.
  - split; [by eexists |]. cbn [info].
    rewrite elem_of_app, list_elem_of_singleton. intros [Hin | Heq]; [done |].
    discriminate Heq.
Qed.

(** *** The OAuth2 check *)

Lemma session_call_answered (r : Request) (s : State) w resp :
  session_request (world s) r = (w, inl resp) ->
  session_call r s = (sent r w s, Ok resp).
Proof. intros H. unfold session_call. by rewrite H. Qed.

Lemma session_call_raised (r : Request) (s : State) w e :
  session_request (world s) r = (w, inr e) ->
  session_call r s = (sent r w s, Raise e).
Proof. intros H. unfold session_call. by rewrite H. Qed.

(** C5. With the OAuth2 page answering 200 and showing "OAuth 2", and a
    supplied version in the vulnerable range as the rule words it, the check
    returns the Critical finding that cites CVE-2023-46806, and the page
    request is the only thing it handed to the session: no callback was tried. *)
Theorem oauth2_version_short_circuit (s : State) (vi : gmap string string)
    (version : string) (w : World) (page : Response) :
  version_info self = Some vi ->
  vi !! "version" = Some version ->
  Py.startswith version "4.2" && Py.lt version "4.2.2"
  || Py.startswith version "4.1" && Py.lt version "4.1.5"
  || Py.startswith version "4.0" && Py.lt version "4.0.11" = true ->
  session_request (world s) oauth_page_request = (w, inl page) ->
  status_code page = 200%Z ->
  Py.contains "OAuth 2" (text page) = true ->
  exists finding,
    test_oauth2_bypass s = (sent oauth_page_request w s, Ok (Some finding)) /\
    severity finding = Critical /\
    cve finding = Some "CVE-2023-46806" /\
    trace (sent oauth_page_request w s) = (trace s ++ [Sent oauth_page_request])%list.
Proof.
  intros Hvi Hversion Hrange Hpage Hstatus Hbody.
  exists (oauth2_version_finding version). split; [| done].
  unfold test_oauth2_bypass, bind, session_get.
  fold oauth_page_request.
  rewrite (session_call_answered _ _ _ _ Hpage), Hstatus, Hbody. cbn [negb orb Z.eqb Pos.eqb].
  assert (Hgiven : supplied_version = Some version).
  { unfold supplied_version. rewrite Hvi, Hversion.
    destruct version; [discriminate Hrange | done]. }
  assert (Hvulnerable : vulnerable_version version = true).
  { unfold vulnerable_version.
    destruct (Py.startswith version "4.2" && Py.lt version "4.2.2"); [done |].
    destruct (Py.startswith version "4.1" && Py.lt version "4.1.5"); [done |].
    by destruct (Py.startswith version "4.0" && Py.lt version "4.0.11"). }
  by rewrite Hgiven, Hvulnerable.
Qed.

(** *** The CSRF check *)

Lemma pause_world (s : State) :
  exists s', pause s = (s', Ok tt) /\ world s' = world s
             /\ _login_attempts s' = _login_attempts s /\ results s' = results s
             /\ exists events, trace s' = (trace s ++ events)%list
                               /\ Forall (fun e => is_request e = false) events.
Proof.
  unfold pause. destruct (0 <? delay self)%float.
  - eexists. repeat split. exists [Sleep (delay self)]. split; [done |].
    by apply Forall_singleton.
  - eexists. repeat split. exists []. by rewrite app_nil_r.
Qed.

(** C7. After the login page came back with status 200 the check decides in
    this order.  No [logintoken] field: the High finding of missing
    protection, with nothing more sent.  A field whose value is shorter than
    20: the Medium finding of a weak token, which cites the length, with
    nothing more sent.  Otherwise the login with an empty token is posted,
    and its body alone decides between the High finding of a bypass (it
    holds "username" and no "Invalid token") and no finding.  The result is
    one finding at most, so the three conditions exclude each other. *)
Theorem csrf_first_applicable_condition (s : State) (w1 : World) (page : Response) :
  session_request (world s) login_page_request = (w1, inl page) ->
  status_code page = 200%Z ->
  (find_input (text page) "logintoken" = None ->
     test_csrf_token_weaknesses s
     = (sent login_page_request w1 s, Ok (Some missing_csrf_finding)))
  /\ (forall token_input,
        find_input (text page) "logintoken" = Some token_input ->
        String.length (default "" (token_input !! "value")) < 20 ->
        test_csrf_token_weaknesses s
        = (sent login_page_request w1 s,
           Ok (Some (weak_csrf_finding (default "" (token_input !! "value"))))))
  /\ (forall token_input w2 answer,
        find_input (text page) "logintoken" = Some token_input ->
        20 <= String.length (default "" (token_input !! "value")) ->
        session_request w1 (login_post_request "admin" "wrongpassword" "")
        = (w2, inl answer) ->
        snd (test_csrf_token_weaknesses s)
        = Ok (if Py.contains "username" (text answer)
                 && negb (Py.contains "Invalid token" (text answer))
              then Some csrf_bypass_finding
              else None))
  /\ severity missing_csrf_finding = High
  /\ (forall token,
        severity (weak_csrf_finding token) = Medium /\
        evidence (weak_csrf_finding token)
        = Some ("Login token length is only "
                +:+ Py.str_of_nat (String.length token) +:+ " characters."))
  /\ severity csrf_bypass_finding = High.
Proof.
  intros Hpage Hstatus.
  assert (Hstart : forall k : Response -> M (option Finding),
             bind (session_get login_url [] []) k s
             = k page (sent login_page_request w1 s)).
  { intros k. unfold bind, session_get. fold login_page_request.
    by rewrite (session_call_answered _ _ _ _ Hpage). }
  unfold test_csrf_token_weaknesses. rewrite Hstart, Hstatus.
  cbn [negb Z.eqb Pos.eqb].
  repeat split.
  - intros Hnone. by rewrite Hnone.
  - intros token_input Hsome Hshort. rewrite Hsome.
    by destruct (Nat.ltb_spec (String.length (default "" (token_input !! "value"))) 20);
      [| lia].
  - intros token_input w2 answer Hsome Hlong Hpost. rewrite Hsome.
    destruct (Nat.ltb_spec (String.length (default "" (token_input !! "value"))) 20);
      [lia |].
    destruct (pause_world (sent login_page_request w1 s)) as (s2 & Hpause & Hworld & _).
    unfold bind. rewrite Hpause.
    unfold session_post. fold (login_post_request "admin" "wrongpassword" "").
    rewrite (session_call_answered _ s2 w2 answer) by (by rewrite Hworld).
    by destruct (Py.contains "username" (text answer)
                 && negb (Py.contains "Invalid token" (text answer))).
Qed.

(** *** The session fixation check *)

(** C8. With a session cookie in the jar after the login page, credentials
    given to the tester, and the posted login judged successful (its final
    URL holds "/my/" or its body "Dashboard"): a cookie that still has its
    value from before the login gives the High finding, whose evidence
    shows that value; any other outcome for the cookie gives no finding. *)
Theorem session_fixation_verdict (s : State) (w1 w2 : World)
    (page login_response : Response) (pre_login_session user pass : string) :
  session_request (world s) login_page_request = (w1, inl page) ->
  status_code page = 200%Z ->
  session_cookies w1 !! "MoodleSession" = Some pre_login_session ->
  username self = Some user -> user <> "" ->
  password self = Some pass -> pass <> "" ->
  session_request w1 (login_post_request user pass (logintoken_of (text page)))
  = (w2, inl login_response) ->
  Py.contains "/my/" (url login_response)
  || Py.contains "Dashboard" (text login_response) = true ->
  (session_cookies w2 !! "MoodleSession" = Some pre_login_session ->
     snd (test_session_fixation s)
     = Ok (Some (session_fixation_finding pre_login_session)))
  /\ (session_cookies w2 !! "MoodleSession" <> Some pre_login_session ->
        snd (test_session_fixation s) = Ok None)
  /\ severity (session_fixation_finding pre_login_session) = High
  /\ evidence (session_fixation_finding pre_login_session)
      = Some ("Session cookie remains the same before and after login: "
              +:+ pre_login_session).
Proof.
  intros Hpage Hstatus Hpre Huser Huser_ne Hpass Hpass_ne Hpost Hjudged.
  assert (Hrun : snd (test_session_fixation s)
                 = Ok (if decide (Some pre_login_session
                                  = session_cookies w2 !! "MoodleSession")
                       then Some (session_fixation_finding pre_login_session)
                       else None)).
  { unfold test_session_fixation, bind at 1, session_get. fold login_page_request.
    rewrite (session_call_answered _ _ _ _ Hpage), Hstatus. cbn [negb Z.eqb Pos.eqb].
    unfold bind at 1, moodle_session at 1, get. cbn [world sent log_event set_world].
    rewrite Hpre, Huser, Hpass. cbn [default from_option id].
    replace (Py.truthy (Some user) && Py.truthy (Some pass)) with true
      by (by destruct user, pass).
    destruct (pause_world (sent login_page_request w1 s)) as (s2 & Hpause & Hworld & _).
    unfold bind at 1. rewrite Hpause.
    unfold bind at 1, session_post.
    fold (login_post_request user pass (logintoken_of (text page))).
    rewrite (session_call_answered _ s2 w2 login_response) by (by rewrite Hworld).
    rewrite Hjudged.
    unfold bind, moodle_session, get. cbn [world sent log_event set_world].
    by destruct (decide (Some pre_login_session = session_cookies w2 !! "MoodleSession")). }
  repeat split.
  - intros Hsame. rewrite Hrun. by rewrite decide_True.
  - intros Hdiff. rewrite Hrun. by rewrite decide_False.
Qed.

(** *** Login attempts and their budget *)

Lemma extends_refl P s : extends P s s.
Proof. split; [done |]. exists []. by rewrite app_nil_r. Qed.

Lemma extends_trans P s1 s2 s3 :
  extends P s1 s2 -> extends P s2 s3 -> extends P s1 s3.
Proof.
  intros [Ha1 (ev1 & Ht1 & Hp1)] [Ha2 (ev2 & Ht2 & Hp2)].
  split; [congruence |].
  exists (ev1 ++ ev2)%list. split; [by rewrite Ht2, Ht1, app_assoc |].
  by apply Forall_app.
Qed.

Lemma emits_ret {A} P (a : A) : emits P (ret a).
Proof. intros s. apply extends_refl. Qed.

Lemma emits_bind {A B} P (c : M A) (k : A -> M B) :
  emits P c -> (forall a, emits P (k a)) -> emits P (bind c k).
Proof.
  intros Hc Hk s. unfold bind. specialize (Hc s).
  destruct (c s) as [s1 [a | e]]; cbn in *; [| done].
  eapply extends_trans; [exact Hc | apply Hk].
Qed.

Lemma emits_try {A} P (c : M A) (h : Exn -> M A) :
  emits P c -> (forall e, emits P (h e)) -> emits P (try_except c h).
Proof.
  intros Hc Hh s. unfold try_except. specialize (Hc s).
  destruct (c s) as [s1 [a | e]]; cbn in *; [done |].
  eapply extends_trans; [exact Hc | apply Hh].
Qed.

Lemma emits_pause P : (forall d, P (Sleep d)) -> emits P pause.
Proof.
  intros HP s. unfold pause.
  destruct (0 <? delay self)%float; [| apply extends_refl].
  split; [done |]. exists [Sleep (delay self)]. split; [done |].
  by apply Forall_singleton.
Qed.

Lemma emits_session_call P (r : Request) : P (Sent r) -> emits P (session_call r).
Proof.
  intros HP s. unfold session_call.
  destruct (session_request (world s) r) as [w [resp | e]];
    (split; [done |]; exists [Sent r]; split; [done | by apply Forall_singleton]).
Qed.

Lemma emits_safe_request P method u data :
  (forall d, P (Sleep d)) ->
  P (Sent (mkRequest method u [] data [] (timeout self) (Some (verify_ssl self)))) ->
  emits P (_safe_request method u data).
Proof.
  intros Hsleep Hsent. unfold _safe_request.
  apply emits_bind; [by apply emits_pause | intros _].
  apply emits_try; [| intros e; apply emits_ret].
  apply emits_bind; [by apply emits_session_call | intros r; apply emits_ret].
Qed.

(** Inside its [try], an attempt fetches pages and posts the form with the
    credentials it was given. *)
Lemma emits_test_authentication_try user pass :
  emits (login_event (fun u p => u = user /\ p = pass))
        (test_authentication_try user pass).
Proof.
  unfold test_authentication_try.
  repeat first
    [ apply emits_ret
    | apply emits_safe_request; [done |]
    | apply emits_pause; done
    | apply emits_bind; [| intros ?]
    | match goal with |- emits _ (match ?x with _ => _ end) => destruct x end ];
    cbn; try done.
  by eexists _, _, _.
Qed.

(** What one call of [test_authentication] does: it returns, and either it
    refused and changed nothing, or it recorded one more attempt for the
    account and went to the network with these credentials. *)
Lemma test_authentication_effect user pass s :
  exists s' hit events,
    test_authentication user pass s = (s', Ok hit) /\
    trace s' = (trace s ++ events)%list /\
    Forall (login_event (fun u p => u = user /\ p = pass)) events /\
    ((s' = s /\ hit = false /\ events = [] /\
      (user = "" \/ 3 <= attempts_of (md5_hexdigest user) s))
     \/ (user <> "" /\ attempts_of (md5_hexdigest user) s < 3 /\
         _login_attempts s'
         = <[md5_hexdigest user := attempts_of (md5_hexdigest user) s + 1]>
             (_login_attempts s))).
Proof.
  unfold test_authentication.
  destruct (String.eqb_spec user "") as [-> | Huser].
  { exists s, false, []. rewrite app_nil_r. repeat split; auto 6. }
  unfold bind at 1, get.
  destruct (Nat.leb_spec _max_attempts_per_account (attempts_of (md5_hexdigest user) s))
    as [Hfull | Hfree].
  { exists s, false, []. rewrite app_nil_r. repeat split; auto 6. }
  unfold bind, modify, try_except.
  set (s0 := set_login_attempts _ s).
  pose proof (emits_test_authentication_try user pass s0) as [Hattempts (events & Htrace & Hevents)].
  destruct (test_authentication_try user pass s0) as [s1 [hit | e]]; cbn in *.
  - exists s1, hit, events. repeat split; auto.
  - exists s1, false, events. repeat split; auto.
Qed.

Lemma login_event_mono (P Q : string -> string -> Prop) e :
  (forall u p, P u p -> Q u p) -> login_event P e -> login_event Q e.
Proof.
  intros HPQ. destruct e as [d | r]; cbn; [done |].
  destruct (req_method r); [done |].
  intros (u & p & token & HP & Hdata). exists u, p, token. auto.
Qed.

Lemma sleep_login_event P e : is_request e = false -> login_event P e.
Proof. by destruct e. Qed.

Lemma attempts_of_insert h h' n s s' :
  _login_attempts s' = <[h := n]> (_login_attempts s) ->
  attempts_of h' s' = if decide (h = h') then n else attempts_of h' s.
Proof.
  intros Heq. unfold attempts_of. rewrite Heq, lookup_insert.
  by destruct (decide (h = h')).
Qed.

(** One call never lowers a count. *)
Lemma test_authentication_attempts_mono user pass s h :
  attempts_of h s <= attempts_of h (fst (test_authentication user pass s)).
Proof.
  destruct (test_authentication_effect user pass s)
    as (s' & hit & events & -> & _ & _ & [(-> & _) | (_ & Hfree & Hins)]); cbn; [done |].
  rewrite (attempts_of_insert _ h _ _ _ Hins).
  destruct (decide (md5_hexdigest user = h)) as [<- | _]; lia.
Qed.

(** The loop over [l] when the account of [user] has at most [budget]
    attempts left: it returns, what it returns is an entry within the
    budget, and every login form it posted carried such an entry. *)
Lemma common_credentials_budget (user : string) (l : list Credentials) :
  user <> "" ->
  forall (budget : nat) (s : State),
    3 <= attempts_of (md5_hexdigest user) s + budget ->
    exists s' found events,
      test_common_credentials_from l s = (s', Ok found) /\
      trace s' = (trace s ++ events)%list /\
      Forall (login_event (fun u p =>
                exists c, c ∈ within_budget user budget l
                          /\ u = cred_username c /\ p = cred_password c)) events /\
      (forall c, found = Some c -> c ∈ within_budget user budget l).
Proof.
  intros Huser. induction l as [| creds rest IH]; intros budget s Hbudget.
  { exists s, None, []. rewrite app_nil_r. by repeat split. }
  cbn [test_common_credentials_from]. unfold bind.
  destruct (pause_world s) as (s0 & -> & _ & Hatt0 & _ & ev0 & Htr0 & Hev0).
  assert (Hcount0 : attempts_of (md5_hexdigest user) s0 = attempts_of (md5_hexdigest user) s)
    by (unfold attempts_of; by rewrite Hatt0).
  pose proof (test_authentication_attempts_mono (cred_username creds) (cred_password creds)
                s0 (md5_hexdigest user)) as Hmono.
  destruct (test_authentication_effect (cred_username creds) (cred_password creds) s0)
    as (s1 & hit & ev1 & Hcall & Htr1 & Hev1 & Hcase).
  rewrite Hcall in Hmono |- *. cbn [fst] in Hmono.
  (* the budget left for the rest of the list *)
  set (budget' := if String.eqb (cred_username creds) user then pred budget else budget).
  assert (Hhead : ev1 <> [] \/ hit = true ->
                   creds ∈ within_budget user budget (creds :: rest)).
  { intros Hdid. cbn [within_budget].
    destruct (String.eqb_spec (cred_username creds) user) as [Heq | _];
      [| apply list_elem_of_here].
    destruct budget as [| k]; [| apply list_elem_of_here].
    destruct Hcase as [(_ & -> & -> & _) | (_ & Hfree & _)];
      [by destruct Hdid | rewrite Heq in Hfree; lia]. }
  assert (Hsub : forall c, c ∈ within_budget user budget' rest ->
                           c ∈ within_budget user budget (creds :: rest)).
  { intros c Hc. subst budget'. cbn [within_budget].
    destruct (String.eqb (cred_username creds) user); [| by apply list_elem_of_further].
    destruct budget as [| k]; [done | by apply list_elem_of_further]. }
  assert (Hbudget' : 3 <= attempts_of (md5_hexdigest user) s1 + budget').
  { subst budget'.
    destruct (String.eqb_spec (cred_username creds) user) as [Heq | _]; [| lia].
    destruct Hcase as [(-> & _ & _ & [Hempty | Hfull]) | (_ & Hfree & Hins)].
    - congruence.
    - rewrite Heq in Hfull. lia.
    - rewrite (attempts_of_insert _ (md5_hexdigest user) _ _ _ Hins), Heq.
      rewrite decide_True by done. lia. }
  assert (Hev01 : Forall (login_event (fun u p =>
                    exists c, c ∈ within_budget user budget (creds :: rest)
                              /\ u = cred_username c /\ p = cred_password c))
                  (ev0 ++ ev1)).
  { apply Forall_app. split.
    - eapply Forall_impl; [exact Hev0 | intros e He; by apply sleep_login_event].
    - destruct ev1 as [| e1 ev1']; [constructor |].
      eapply Forall_impl; [exact Hev1 |]. intros e He.
      eapply login_event_mono; [| exact He]. intros u p [-> ->].
      exists creds. split; [apply Hhead; by left | done]. }
  destruct hit.
  - exists s1, (Some creds), (ev0 ++ ev1)%list.
    split; [done |]. split; [by rewrite Htr1, Htr0, app_assoc |].
    split; [done |]. intros c [= <-]. apply Hhead. by right.
  - destruct (IH budget' s1 Hbudget') as (s2 & found & ev2 & Hrest & Htr2 & Hev2 & Hfound).
    exists s2, found, (ev0 ++ ev1 ++ ev2)%list.
    split; [done |]. split; [by rewrite Htr2, Htr1, Htr0, !app_assoc |].
    split.
    + rewrite app_assoc. apply Forall_app. split; [done |].
      eapply Forall_impl; [exact Hev2 |]. intros e He.
      eapply login_event_mono; [| exact He].
      intros u p (c & Hc & Hu & Hp). exists c. auto.
    + intros c Hc. apply Hsub. by apply Hfound.
Qed.

(** The loop, one turn at a time. *)
Lemma common_credentials_turn creds rest s :
  test_common_credentials_from (creds :: rest) s
  = match attempt creds s with
    | (s', Ok true) => (s', Ok (Some creds))
    | (s', Ok false) => test_common_credentials_from rest s'
    | (s', Raise e) => (s', Raise e)
    end.
Proof.
  cbn [test_common_credentials_from]. unfold attempt, bind.
  destruct (pause s) as [s0 [[] | e]]; [| done].
  by destruct (test_authentication (cred_username creds) (cred_password creds) s0)
    as [s1 [[|] | e]].
Qed.

Lemma returns_attempt creds : returns (attempt creds).
Proof.
  unfold attempt. apply returns_bind; [apply returns_pause | intros _].
  apply returns_test_authentication.
Qed.

(** A loop that found nothing has used up the budget of [user] by as many
    attempts as the list has entries for [user], up to the maximum. *)
Lemma common_credentials_exhausts (user : string) (l : list Credentials) :
  user <> "" ->
  forall s s1,
    test_common_credentials_from l s = (s1, Ok None) ->
    Nat.min 3 (attempts_of (md5_hexdigest user) s + entries_of user l)
    <= attempts_of (md5_hexdigest user) s1.
Proof.
  intros Huser. induction l as [| creds rest IH]; intros s s1 Hrun.
  { injection Hrun as <-. unfold entries_of. cbn [List.filter length]. lia. }
  cbn [test_common_credentials_from] in Hrun. unfold bind in Hrun.
  destruct (pause_world s) as (s0 & Hpause & _ & Hatt0 & _).
  rewrite Hpause in Hrun.
  assert (Hcount0 : attempts_of (md5_hexdigest user) s0 = attempts_of (md5_hexdigest user) s)
    by (unfold attempts_of; by rewrite Hatt0).
  pose proof (test_authentication_attempts_mono (cred_username creds) (cred_password creds)
                s0 (md5_hexdigest user)) as Hmono.
  destruct (test_authentication_effect (cred_username creds) (cred_password creds) s0)
    as (s' & hit & ev & Hcall & _ & _ & Hcase).
  rewrite Hcall in Hrun, Hmono. cbn [fst] in Hmono.
  destruct hit; [discriminate Hrun |].
  specialize (IH _ _ Hrun).
  unfold entries_of in *. cbn [List.filter].
  destruct (String.eqb_spec (cred_username creds) user) as [Heq | _]; cbn [length]; [| lia].
  destruct Hcase as [(-> & _ & _ & [Hempty | Hfull]) | (_ & Hfree & Hins)].
  - congruence.
  - rewrite Heq in Hfull. lia.
  - rewrite (attempts_of_insert _ (md5_hexdigest user) _ _ _ Hins), Heq in IH.
    rewrite decide_True in IH by done. lia.
Qed.

(** The loop returns the first entry whose attempt returns true, and [None]
    when every attempt returned false. *)
Lemma common_credentials_first_hit (l : list Credentials) (s : State) :
  exists s' found,
    test_common_credentials_from l s = (s', Ok found) /\
    match found with
    | Some creds =>
        exists pre post s1,
          l = (pre ++ creds :: post)%list /\
          test_common_credentials_from pre s = (s1, Ok None) /\
          attempt creds s1 = (s', Ok true)
    | None =>
        forall pre creds post,
          l = (pre ++ creds :: post)%list ->
          exists s1 s2,
            test_common_credentials_from pre s = (s1, Ok None) /\
            attempt creds s1 = (s2, Ok false)
    end.
Proof.
  revert s. induction l as [| c rest IH]; intros s.
  { exists s, None. split; [done |]. intros [| ? ?] ? ? [=]. }
  rewrite common_credentials_turn.
  destruct (returns_attempt c s) as (s0 & hit & Hattempt). rewrite Hattempt.
  destruct hit.
  { exists s0, (Some c). split; [done |]. by exists [], rest, s. }
  destruct (IH s0) as (s' & found & Hrest & Hfound).
  exists s', found. split; [done |].
  destruct found as [creds |].
  - destruct Hfound as (pre & post & s1 & -> & Hpre & Hhit).
    exists (c :: pre), post, s1. split; [done |]. split; [| done].
    by rewrite common_credentials_turn, Hattempt.
  - intros [| c' pre] creds post Hsplit; cbn [app] in Hsplit;
      injection Hsplit as <- ->.
    + by exists s, s0.
    + destruct (Hfound pre creds post eq_refl) as (s1 & s2 & Hpre & Hmiss).
      exists s1, s2. split; [| done].
      by rewrite common_credentials_turn, Hattempt.
Qed.

(** C6, as the code has it.  The check makes its attempts in the order of
    the list, each one a call of [test_authentication] with the budget of
    its account, and returns the first entry whose call returns true: the
    loop over the entries before it found nothing, and the attempt made in
    the state that loop left succeeded.  It returns [None] exactly when every
    entry had its turn and every call returned false. *)
Theorem common_credentials_first_success (s : State) :
  exists s' found,
    test_common_credentials s = (s', Ok found) /\
    match found with
    | Some creds =>
        exists pre post s1,
          test_credentials = (pre ++ creds :: post)%list /\
          test_common_credentials_from pre s = (s1, Ok None) /\
          attempt creds s1 = (s', Ok true)
    | None =>
        forall pre creds post,
          test_credentials = (pre ++ creds :: post)%list ->
          exists s1 s2,
            test_common_credentials_from pre s = (s1, Ok None) /\
            attempt creds s1 = (s2, Ok false)
    end.
Proof. apply common_credentials_first_hit. Qed.

Lemma refused_after_pause user pass s1 :
  3 <= attempts_of (md5_hexdigest user) s1 ->
  exists s2, pause s1 = (s2, Ok tt) /\
             test_authentication user pass s2 = (s2, Ok false).
Proof.
  intros Hfull. destruct (pause_world s1) as (s2 & Hpause & _ & Hatt & _).
  exists s2. split; [done |]. apply refused. right.
  unfold attempts_of in *. by rewrite Hatt.
Qed.

(** C10. On a fresh instance the budget of three is spent by the first
    three entries for "admin".  If the loop gets as far as admin/moodle or
    admin/changeme, its turn is the pause and a call of
    [test_authentication] that returns false and changes nothing, so nothing
    is sent for it.  Hence the check never returns either entry, and every
    login form it posts carries one of the other four. *)
Theorem common_credentials_admin_budget (w : World) :
  (forall s1,
     test_common_credentials_from (take 3 test_credentials) (fresh w) = (s1, Ok None) ->
     exists s2, pause s1 = (s2, Ok tt) /\
                test_authentication "admin" "moodle" s2 = (s2, Ok false))
  /\ (forall s1,
        test_common_credentials_from (take 5 test_credentials) (fresh w) = (s1, Ok None) ->
        exists s2, pause s1 = (s2, Ok tt) /\
                   test_authentication "admin" "changeme" s2 = (s2, Ok false))
  /\ exists s' found,
       test_common_credentials (fresh w) = (s', Ok found) /\
       found <> Some (mkCredentials "admin" "moodle" "product name as password") /\
       found <> Some (mkCredentials "admin" "changeme" "temporary default password") /\
       Forall (login_event (fun u p =>
                 (u, p) ∈ [ ("admin", "admin"); ("admin", "password");
                            ("admin", "Password123"); ("guest", "") ]))
              (trace s').
Proof.
  assert (Hadmin : "admin" <> "") by done.
  split; [| split].
  - intros s1 Hrun. apply refused_after_pause.
    pose proof (common_credentials_exhausts "admin" _ Hadmin _ _ Hrun) as Hspent.
    rewrite attempts_of_fresh in Hspent.
    change (entries_of "admin" (take 3 test_credentials)) with 3 in Hspent. lia.
  - intros s1 Hrun. apply refused_after_pause.
    pose proof (common_credentials_exhausts "admin" _ Hadmin _ _ Hrun) as Hspent.
    rewrite attempts_of_fresh in Hspent.
    change (entries_of "admin" (take 5 test_credentials)) with 4 in Hspent. lia.
  - destruct (common_credentials_budget "admin" test_credentials Hadmin 3 (fresh w))
      as (s' & found & events & Hrun & Htrace & Hevents & Hfound).
    { rewrite attempts_of_fresh. lia. }
    change (within_budget "admin" 3 test_credentials)
      with [ mkCredentials "admin" "admin" "default admin credentials";
             mkCredentials "admin" "password" "simple admin password";
             mkCredentials "admin" "Password123" "common admin password";
             mkCredentials "guest" "" "empty guest password" ] in Hevents, Hfound.
    exists s', found. split; [exact Hrun |].
    split; [| split].
    + intros ->. specialize (Hfound _ eq_refl).
      rewrite !elem_of_cons, elem_of_nil in Hfound.
      by destruct Hfound as [? | [? | [? | [? | []]]]].
    + intros ->. specialize (Hfound _ eq_refl).
      rewrite !elem_of_cons, elem_of_nil in Hfound.
      by destruct Hfound as [? | [? | [? | [? | []]]]].
    + rewrite Htrace. cbn [fresh trace app].
      eapply Forall_impl; [exact Hevents |]. intros e He.
      eapply login_event_mono; [| exact He].
      intros u p (c & Hc & -> & ->).
      rewrite !elem_of_cons, elem_of_nil in Hc.
      destruct Hc as [-> | [-> | [-> | [-> | []]]]]; cbn;
        rewrite !elem_of_cons; auto 6.
Qed.

(** *** Requests made past [_safe_request] *)

(** A computation that starts by calling the session has that request as
    its first event, with no sleep before it. *)
Lemma first_event_of_call {B} (r : Request) (k : Response -> M B) :
  (forall resp, emits (fun _ => True) (k resp)) ->
  forall s, exists events,
    trace (fst (bind (session_call r) k s)) = (trace s ++ Sent r :: events)%list.
Proof.
  intros Hk s. unfold bind, session_call.
  destruct (session_request (world s) r) as [w [resp | e]].
  - destruct (Hk resp (log_event (Sent r) (set_world w s))) as [_ (events & Htrace & _)].
    exists events. rewrite Htrace. cbn [trace log_event set_world].
    by rewrite <- app_assoc.
  - by exists [].
Qed.

(** C9, what the code does.  Whatever the delay, the CSRF check hands its
    first request to the session with no sleep of its own before it. *)
Theorem csrf_page_fetched_without_sleep (s : State) :
  exists events,
    trace (fst (test_csrf_token_weaknesses s))
    = (trace s ++ Sent login_page_request :: events)%list.
Proof.
  unfold test_csrf_token_weaknesses, session_get. fold login_page_request.
  apply first_event_of_call. intros resp.
  repeat first
    [ apply emits_ret
    | apply emits_pause; done
    | apply emits_session_call; done
    | apply emits_bind; [| intros ?]
    | match goal with |- emits _ (match ?x with _ => _ end) => destruct x end ].
Qed.

(** The first request of the OAuth2 check is made outside any [try]: a
    failure of the transport leaves the check as an exception. *)
Lemma oauth2_transport_failure_escapes (s : State) (w : World) (e : Exn) :
  session_request (world s) oauth_page_request = (w, inr e) ->
  test_oauth2_bypass s = (sent oauth_page_request w s, Raise e).
Proof.
  intros Hfail. unfold test_oauth2_bypass, bind, session_get. fold oauth_page_request.
  by rewrite (session_call_raised _ _ _ _ Hfail).
Qed.

(** *** The target URL and the version rule *)

(** X1. [__init__] stores the target with its trailing slashes taken off and
    nothing else changed: the stored URL followed by a run of slashes is the
    URL given, and the stored URL does not end in a slash. *)
Theorem init_strips_trailing_slashes (target : string) (user pass : option string)
    (tmo : Z) (dly : float) (verify : bool) :
  (exists n, target = target_url (init target user pass tmo dly verify) +:+ Py.slashes n)
  /\ forall pre, target_url (init target user pass tmo dly verify) <> pre +:+ "/".
Proof.
  cbn [init target_url]. induction target as [| c rest [[n Hn] Hend]].
  { split; [by exists 0 |]. intros [| ? ?]; discriminate. }
  cbn [Py.rstrip_slash]. destruct (Py.rstrip_slash rest) as [| a r].
  - destruct (Ascii.eqb_spec c "/"%char) as [-> | Hc].
    + split; [exists (S n); by rewrite Hn |].
      intros [| ? ?]; discriminate.
    + split; [exists n; by rewrite Hn |].
      intros [| a' [| ? ?]] Heq; injection Heq; congruence.
  - split; [exists n; by rewrite Hn |].
    intros [| a' pre'] Heq; injection Heq; [discriminate |].
    intros Hr _. by apply (Hend pre').
Qed.

(** X2. The version rule compares text, not numbers.  Every version string
    that starts with "4.1.1", such as 4.1.10 to 4.1.19, is taken for
    vulnerable, and no version string "4.0." followed by a digit from 2 to
    9, such as 4.0.5 or 4.0.21, is. *)
Theorem vulnerable_version_is_textual (rest : string) :
  vulnerable_version ("4.1.1" +:+ rest) = true
  /\ forall d : ascii,
       d ∈ ["2"; "3"; "4"; "5"; "6"; "7"; "8"; "9"]%char ->
       vulnerable_version ("4.0." +:+ String d rest) = false.
Proof.
  split; [by vm_compute |].
  intros d Hd. rewrite !elem_of_cons, elem_of_nil in Hd.
  destruct Hd as [-> | [-> | [-> | [-> | [-> | [-> | [-> | [-> | []]]]]]]]];
    by vm_compute.
Qed.

(** *** Events and attempts of a whole run *)

Lemma steady_ret {A} P (a : A) : steady P (ret a).
Proof. intros s. split; [| done]. exists []. by rewrite app_nil_r. Qed.

Lemma steady_get {A} P (f : State -> A) : steady P (get f).
Proof. intros s. split; [| done]. exists []. by rewrite app_nil_r. Qed.

Lemma steady_bind {A B} P (c : M A) (k : A -> M B) :
  steady P c -> (forall a, steady P (k a)) -> steady P (bind c k).
Proof.
  intros Hc Hk s. unfold bind. destruct (Hc s) as [(ev1 & Ht1 & Hp1) Hl1].
  destruct (c s) as [s1 [a | e]]; cbn [fst] in *; [| by eauto].
  destruct (Hk a s1) as [(ev2 & Ht2 & Hp2) Hl2]. split; [| by auto].
  exists (ev1 ++ ev2)%list. split; [by rewrite Ht2, Ht1, app_assoc |].
  by apply Forall_app.
Qed.

Lemma steady_try {A} P (c : M A) (h : Exn -> M A) :
  steady P c -> (forall e, steady P (h e)) -> steady P (try_except c h).
Proof.
  intros Hc Hh s. unfold try_except. destruct (Hc s) as [(ev1 & Ht1 & Hp1) Hl1].
  destruct (c s) as [s1 [a | e]]; cbn [fst] in *; [by eauto |].
  destruct (Hh e s1) as [(ev2 & Ht2 & Hp2) Hl2]. split; [| by auto].
  exists (ev1 ++ ev2)%list. split; [by rewrite Ht2, Ht1, app_assoc |].
  by apply Forall_app.
Qed.

Lemma steady_pause P : P (Sleep (delay self)) -> steady P pause.
Proof.
  intros HP s. unfold pause.
  destruct (0 <? delay self)%float; [| apply steady_ret].
  split; [| done]. exists [Sleep (delay self)]. split; [done |].
  by apply Forall_singleton.
Qed.

Lemma steady_session_call P (r : Request) : P (Sent r) -> steady P (session_call r).
Proof.
  intros HP s. unfold session_call.
  destruct (session_request (world s) r) as [w [resp | e]];
    (split; [| done]; exists [Sent r]; split; [done | by apply Forall_singleton]).
Qed.

(** Writing to [results] touches neither the trace nor the attempts. *)
Lemma steady_set_results P (f : State -> Report) :
  steady P (modify (fun s => set_results (f s) s)).
Proof. intros s. split; [| done]. exists []. by rewrite app_nil_r. Qed.

Lemma prefix_app (a b : string) : String.prefix a (a +:+ b) = true.
Proof.
  induction a as [| c a IH]; [by destruct b |].
  change (String c a +:+ b) with (String c (a +:+ b)).
  cbn [String.prefix]. by destruct (ascii_dec c c).
Qed.

(** A request for a page of the target with the configured timeout. *)
Lemma on_target_request method suffix params data headers verify :
  on_target (Sent (mkRequest method (target_url self +:+ suffix) params data headers
                     (timeout self) verify)).
Proof. split; [apply prefix_app | done]. Qed.

Lemma on_target_sleep : on_target (Sleep (delay self)).
Proof. done. Qed.

Ltac steady_step :=
  lazymatch goal with
  | |- steady _ (ret _) => apply steady_ret
  | |- steady _ (get _) => apply steady_get
  | |- steady _ pause => apply steady_pause, on_target_sleep
  | |- steady _ (session_call _) => apply steady_session_call, on_target_request
  | |- steady _ (session_get _ _ _) => apply steady_session_call, on_target_request
  | |- steady _ (session_post _ _ _) => apply steady_session_call, on_target_request
  | |- steady _ (try_except _ _) => apply steady_try; [| intros ?]
  | |- steady _ (bind _ _) => apply steady_bind; [| intros ?]
  | |- steady _ (match ?x with _ => _ end) => destruct x
  end.

Lemma steady_safe_request method u_suffix data :
  steady on_target (_safe_request method (target_url self +:+ u_suffix) data).
Proof. unfold _safe_request. repeat steady_step. Qed.

Lemma steady_test_authentication user pass :
  steady on_target (test_authentication user pass).
Proof.
  intros s. split.
  - (* the events *)
    assert (Htry : steady on_target (test_authentication_try user pass)).
    { unfold test_authentication_try, login_url, admin_url.
      repeat first [apply steady_safe_request | steady_step]. }
    unfold test_authentication.
    destruct (String.eqb user ""); [apply steady_ret |].
    unfold bind at 1, get.
    destruct (_max_attempts_per_account <=? _)%nat; [apply steady_ret |].
    unfold bind, modify.
    match goal with |- context [try_except ?c ?h ?s0] =>
      destruct (steady_try on_target c h Htry (fun _ => steady_ret _ _) s0) as [Hev _]
    end.
    exact Hev.
  - (* the limit *)
    intros Hlimit h.
    destruct (test_authentication_effect user pass s)
      as (s' & hit & events & -> & _ & _ & [(-> & _) | (_ & Hfree & Hins)]); cbn [fst];
      [apply Hlimit |].
    rewrite (attempts_of_insert _ h _ _ _ Hins).
    destruct (decide (md5_hexdigest user = h)); [| apply Hlimit].
    unfold _max_attempts_per_account. lia.
Qed.

Lemma steady_test_common_credentials : steady on_target test_common_credentials.
Proof.
  unfold test_common_credentials.
  induction test_credentials as [| creds rest IH]; cbn [test_common_credentials_from].
  - apply steady_ret.
  - repeat first [apply steady_test_authentication | apply IH | steady_step].
Qed.

Lemma steady_test_sql_injection_auth_bypass :
  steady on_target test_sql_injection_auth_bypass.
Proof.
  unfold test_sql_injection_auth_bypass.
  induction sql_injection_payloads as [| payload rest IH]; cbn [test_sql_injection_from].
  - apply steady_ret.
  - repeat first [apply steady_test_authentication | apply IH | steady_step].
Qed.

Lemma steady_oauth2_replay state urls :
  Forall (fun u => exists suffix, u = target_url self +:+ suffix) urls ->
  steady on_target (oauth2_replay state urls).
Proof.
  unfold admin_url.
  induction 1 as [| callback_url rest [suffix ->] _ IH]; cbn [oauth2_replay].
  - apply steady_ret.
  - repeat first [apply IH | steady_step].
Qed.

Lemma steady_test_oauth2_bypass : steady on_target test_oauth2_bypass.
Proof.
  unfold test_oauth2_bypass, oauth2_exploit, oauth_url.
  repeat first
    [ apply steady_oauth2_replay; unfold callback_urls; repeat constructor; by eexists
    | steady_step ].
Qed.

Lemma steady_reset_enumeration token l : steady on_target (reset_enumeration token l).
Proof.
  unfold reset_url. induction l as [| user rest IH]; cbn [reset_enumeration].
  - apply steady_ret.
  - repeat first [apply IH | steady_step].
Qed.

Lemma steady_test_password_reset_vulnerability :
  steady on_target test_password_reset_vulnerability.
Proof.
  unfold test_password_reset_vulnerability.
  repeat first [apply steady_reset_enumeration | unfold reset_url; steady_step].
Qed.

Lemma steady_test_host_header_auth_bypass :
  steady on_target test_host_header_auth_bypass.
Proof.
  unfold test_host_header_auth_bypass, admin_url.
  induction test_headers as [| header rest IH]; cbn [test_host_header_from].
  - apply steady_ret.
  - repeat first [apply IH | steady_step].
Qed.

Lemma steady_test_csrf_token_weaknesses : steady on_target test_csrf_token_weaknesses.
Proof. unfold test_csrf_token_weaknesses, login_url. repeat steady_step. Qed.

Lemma steady_test_session_fixation : steady on_target test_session_fixation.
Proof. unfold test_session_fixation, moodle_session, login_url. repeat steady_step. Qed.

Lemma steady_run_tests : steady on_target run_tests.
Proof.
  unfold run_tests, run_tests_try, report_if_found, append_info, append_vulnerability.
  repeat first
    [ apply steady_set_results
    | apply (steady_set_results on_target (fun _ => mkReport [] []))
    | apply steady_test_authentication
    | apply steady_test_common_credentials
    | apply steady_test_oauth2_bypass
    | apply steady_test_sql_injection_auth_bypass
    | apply steady_test_password_reset_vulnerability
    | apply steady_test_host_header_auth_bypass
    | apply steady_test_csrf_token_weaknesses
    | apply steady_test_session_fixation
    | steady_step ].
Qed.


(** X4. The attempt limit is an invariant of the instance: when no account
    has more than three attempts recorded before a run of [run_tests], none
    has after it, however many credentials the checks went through. *)
Theorem run_tests_keeps_attempt_limit (s : State) :
  within_limit s -> within_limit (fst (run_tests s)).
Proof. apply steady_run_tests. Qed.

(** *** What the checks report *)

Lemma finds_ret_none P : finds P (ret None).
Proof. by intros s. Qed.

Lemma finds_ret_some P f : P f -> finds P (ret (Some f)).
Proof. by intros Hf s. Qed.

Lemma finds_bind {A} P (c : M A) (k : A -> M (option Finding)) :
  (forall a, finds P (k a)) -> finds P (bind c k).
Proof.
  intros Hk s. unfold bind. destruct (c s) as [s1 [a | e]]; [apply Hk | done].
Qed.

Lemma finds_try P (c : M (option Finding)) (h : Exn -> M (option Finding)) :
  finds P c -> (forall e, finds P (h e)) -> finds P (try_except c h).
Proof.
  intros Hc Hh s. unfold try_except. specialize (Hc s).
  destruct (c s) as [s1 [a | e]]; [done | apply Hh].
Qed.

Ltac finds_step :=
  lazymatch goal with
  | |- finds _ (ret None) => apply finds_ret_none
  | |- finds _ (ret (Some _)) => apply finds_ret_some; discriminate
  | |- finds _ (try_except _ _) => apply finds_try; [| intros ?]
  | |- finds _ (bind _ _) => apply finds_bind; intros ?
  | |- finds _ (match ?x with _ => _ end) => destruct x
  end.

Lemma finds_oauth2_replay state urls : finds reportable (oauth2_replay state urls).
Proof.
  induction urls as [| callback_url rest IH]; cbn [oauth2_replay].
  - apply finds_ret_none.
  - repeat first [apply IH | finds_step].
Qed.

Lemma finds_test_oauth2_bypass : finds reportable test_oauth2_bypass.
Proof.
  unfold test_oauth2_bypass, oauth2_exploit.
  repeat first [apply finds_oauth2_replay | finds_step].
Qed.

Lemma finds_test_sql_injection_auth_bypass :
  finds reportable test_sql_injection_auth_bypass.
Proof.
  unfold test_sql_injection_auth_bypass.
  induction sql_injection_payloads as [| payload rest IH]; cbn [test_sql_injection_from].
  - apply finds_ret_none.
  - repeat first [apply IH | finds_step].
Qed.

Lemma finds_reset_enumeration token l : finds reportable (reset_enumeration token l).
Proof.
  induction l as [| user rest IH]; cbn [reset_enumeration].
  - apply finds_ret_none.
  - repeat first [apply IH | finds_step].
Qed.

(** What an inner loop found is what the check goes on with. *)
Lemma finds_bind_found P (c : M (option Finding))
    (k : option Finding -> M (option Finding)) :
  finds P c ->
  (forall o, (forall f, o = Some f -> P f) -> finds P (k o)) ->
  finds P (bind c k).
Proof.
  intros Hc Hk s. unfold bind. specialize (Hc s).
  destruct (c s) as [s1 [o | e]]; [| done].
  apply Hk. by intros f ->.
Qed.

Lemma finds_test_password_reset_vulnerability :
  finds reportable test_password_reset_vulnerability.
Proof.
  unfold test_password_reset_vulnerability.
  apply finds_bind. intros response.
  destruct (_ || _); [apply finds_ret_none |].
  apply finds_bind_found; [apply finds_reset_enumeration |].
  intros [finding |] Hfound.
  - apply finds_ret_some. by apply Hfound.
  - repeat finds_step.
Qed.

Lemma finds_test_host_header_auth_bypass : finds reportable test_host_header_auth_bypass.
Proof.
  unfold test_host_header_auth_bypass.
  induction test_headers as [| header rest IH]; cbn [test_host_header_from].
  - apply finds_ret_none.
  - repeat first [apply IH | finds_step].
Qed.

Lemma finds_test_csrf_token_weaknesses : finds reportable test_csrf_token_weaknesses.
Proof. unfold test_csrf_token_weaknesses. repeat finds_step. Qed.

Lemma finds_test_session_fixation : finds reportable test_session_fixation.
Proof. unfold test_session_fixation. repeat finds_step. Qed.

Lemma wp_bind {A B} (c : M A) (k : A -> M B) Q E s :
  wp c (fun a s' => wp (k a) Q E s') E s -> wp (bind c k) Q E s.
Proof. unfold wp, bind. by destruct (c s) as [s1 [a | e]]. Qed.

Lemma shaped_mono n m s : n <= m -> shaped n s -> shaped m s.
Proof. intros Hnm (Hv & Hi & Hn). repeat split; [done | done | lia]. Qed.

Lemma shaped_results n s s' : results s' = results s -> shaped n s -> shaped n s'.
Proof. unfold shaped. by intros ->. Qed.

(** A check run on shaped results leaves them as they are, and what it
    found, if anything, can go under ["vulnerabilities"]. *)
Lemma shaped_check (c : M (option Finding)) {B} (k : option Finding -> M B) n Q s :
  keeps_results c -> finds reportable c ->
  n <= 7 -> shaped n s ->
  (forall o s', shaped n s' -> (forall f, o = Some f -> reportable f) ->
                wp (k o) Q (shaped 7) s') ->
  wp (bind c k) Q (shaped 7) s.
Proof.
  intros Hkeeps Hfinds Hn Hs Hk. apply wp_bind. unfold wp at 1.
  specialize (Hkeeps s). specialize (Hfinds s).
  destruct (c s) as [s1 [o | e]]; cbn [fst] in *.
  - apply Hk; [by eapply shaped_results | by intros f ->].
  - eapply shaped_mono; [exact Hn | by eapply shaped_results].
Qed.

Lemma shaped_report_if_found o n s :
  S n <= 7 -> shaped n s -> (forall f, o = Some f -> reportable f) ->
  wp (report_if_found o) (fun _ => shaped (S n)) (shaped 7) s.
Proof.
  intros Hn (Hv & Hi & Hlen) Ho.
  destruct o as [f |];
    unfold wp, report_if_found, append_vulnerability, modify, ret, shaped;
    cbn [results set_results vulnerabilities info].
  - repeat split; [| done |].
    + apply Forall_app. split; [done |]. apply Forall_singleton. by apply Ho.
    + rewrite length_app. cbn [length]. lia.
  - repeat split; [done | done | lia].
Qed.

(** A computation that leaves [results] alone, run on shaped results. *)
Lemma shaped_frame {A B} (c : M A) (k : A -> M B) n Q s :
  keeps_results c ->
  n <= 7 -> shaped n s ->
  (forall a s', shaped n s' -> wp (k a) Q (shaped 7) s') ->
  wp (bind c k) Q (shaped 7) s.
Proof.
  intros Hkeeps Hn Hs Hk. apply wp_bind. unfold wp at 1.
  specialize (Hkeeps s).
  destruct (c s) as [s1 [a | e]]; cbn [fst] in *.
  - apply Hk. by eapply shaped_results.
  - eapply shaped_mono; [exact Hn | by eapply shaped_results].
Qed.

Lemma shaped_append_info n s f :
  severity f = Info -> shaped n s ->
  wp (append_info f) (fun _ => shaped n) (shaped 7) s.
Proof.
  intros Hf (Hv & Hi & Hlen).
  unfold wp, append_info, modify, shaped; cbn [results set_results vulnerabilities info].
  repeat split; [done | | done].
  apply Forall_app. split; [done |]. by apply Forall_singleton.
Qed.

Lemma shaped_run_tests_try s :
  shaped 0 s -> wp run_tests_try (fun _ => shaped 7) (shaped 7) s.
Proof.
  intros Hs. unfold run_tests_try.
  eapply (wp_seq _ _ (shaped 0)).
  { destruct (Py.truthy (username self) && Py.truthy (password self));
      [| by unfold wp].
    apply (shaped_frame _ _ 0); [apply keeps_test_authentication | lia | done |].
    intros [|] s1 Hs1; [by apply shaped_append_info | by unfold wp]. }
  clear s Hs. intros _ s Hs.
  apply (shaped_frame _ _ 0); [apply keeps_test_common_credentials | lia | done |].
  clear s Hs. intros weak s Hs.
  eapply (wp_seq _ _ (shaped 1)).
  { apply shaped_report_if_found; [lia | done |].
    intros f Hf. destruct weak; [| done]. injection Hf as <-. discriminate. }
  clear s Hs. intros _ s Hs.
  apply (shaped_check _ _ 1);
    [apply keeps_test_oauth2_bypass | apply finds_test_oauth2_bypass | lia | done |].
  clear s Hs. intros o s Hs Ho.
  eapply (wp_seq _ _ (shaped 2)); [by apply shaped_report_if_found; [lia | |] |].
  clear s Hs o Ho. intros _ s Hs.
  apply (shaped_check _ _ 2);
    [ apply keeps_test_sql_injection_auth_bypass
    | apply finds_test_sql_injection_auth_bypass | lia | done |].
  clear s Hs. intros o s Hs Ho.
  eapply (wp_seq _ _ (shaped 3)); [by apply shaped_report_if_found; [lia | |] |].
  clear s Hs o Ho. intros _ s Hs.
  apply (shaped_check _ _ 3);
    [ apply keeps_test_password_reset_vulnerability
    | apply finds_test_password_reset_vulnerability | lia | done |].
  clear s Hs. intros o s Hs Ho.
  eapply (wp_seq _ _ (shaped 4)); [by apply shaped_report_if_found; [lia | |] |].
  clear s Hs o Ho. intros _ s Hs.
  apply (shaped_check _ _ 4);
    [ apply keeps_test_host_header_auth_bypass
    | apply finds_test_host_header_auth_bypass | lia | done |].
  clear s Hs. intros o s Hs Ho.
  eapply (wp_seq _ _ (shaped 5)); [by apply shaped_report_if_found; [lia | |] |].
  clear s Hs o Ho. intros _ s Hs.
  apply (shaped_check _ _ 5);
    [ apply keeps_test_csrf_token_weaknesses
    | apply finds_test_csrf_token_weaknesses | lia | done |].
  clear s Hs. intros o s Hs Ho.
  eapply (wp_seq _ _ (shaped 6)); [by apply shaped_report_if_found; [lia | |] |].
  clear s Hs o Ho. intros _ s Hs.
  apply (shaped_check _ _ 6);
    [ apply keeps_test_session_fixation
    | apply finds_test_session_fixation | lia | done |].
  clear s Hs. intros o s Hs Ho.
  eapply (wp_seq _ _ (shaped 7)); [by apply shaped_report_if_found; [lia | |] |].
  clear s Hs o Ho. intros _ s Hs.
  apply wp_bind. unfold wp at 1, get.
  destruct (vulnerabilities (results s)); [by apply shaped_append_info | done].
Qed.

(** X5. Whatever the session does, the report of [run_tests] holds at most
    seven findings under "vulnerabilities", one for each check at most and
    none of severity Info, and only notes of severity Info under "info". *)
Theorem run_tests_report_shape (s : State) :
  exists s' report,
    run_tests s = (s', Ok report)
    /\ length (vulnerabilities report) <= 7
    /\ Forall (fun f => severity f <> Info) (vulnerabilities report)
    /\ Forall (fun f => severity f = Info) (info report).
Proof.
  assert (Hinit : shaped 0 (set_results (mkReport [] []) s)).
  { unfold shaped. cbn. repeat split; [constructor | constructor | lia]. }
  pose proof (shaped_run_tests_try _ Hinit) as Hwp. unfold wp in Hwp.
  unfold run_tests, bind, modify, try_except, get.
  destruct (run_tests_try (set_results (mkReport [] []) s)) as [s1 [[] | e]].
  - eexists _, _. split; [reflexivity |].
    destruct Hwp as (Hv & Hi & Hlen). by repeat split.
  - pose proof (shaped_append_info 7 s1 (testing_error_note e) eq_refl Hwp) as Hnote.
    unfold wp in Hnote.
    destruct (append_info (testing_error_note e) s1) as [s2 [[] | e']] eqn:Happend;
      [| discriminate Happend].
    eexists _, _. split; [reflexivity |].
    destruct Hnote as (Hv & Hi & Hlen). by repeat split.
Qed.

(** *** Login attempts, one at a time *)

(** [_safe_request], run: the pause, then the one request, whose failure
    comes back as [None]. *)
Lemma safe_request_run method u data s :
  exists s0,
    pause s = (s0, Ok tt) /\ world s0 = world s /\
    _safe_request method u data s
    = match session_request (world s) (safe_request_of method u data) with
      | (w, inl response) => (sent (safe_request_of method u data) w s0, Ok (Some response))
      | (w, inr _) => (sent (safe_request_of method u data) w s0, Ok None)
      end.
Proof.
  destruct (pause_world s) as (s0 & Hpause & Hworld & _).
  exists s0. split; [done |]. split; [done |].
  unfold _safe_request, bind at 1. rewrite Hpause.
  unfold try_except, bind, session_call. fold (safe_request_of method u data).
  rewrite Hworld.
  by destruct (session_request (world s) (safe_request_of method u data)) as [w [r | e]].
Qed.

(** X6. [_safe_request] never raises.  It makes the pause, hands exactly
    one request to the session, with the timeout and the TLS setting of the
    tester, and returns the response, or [None] when the session raised,
    whatever the exception. *)
Theorem safe_request_absent_on_failure method u data s :
  exists s0,
    pause s = (s0, Ok tt) /\
    forall w outcome,
      session_request (world s) (safe_request_of method u data) = (w, outcome) ->
      _safe_request method u data s
      = (sent (safe_request_of method u data) w s0,
         Ok (match outcome with inl response => Some response | inr _ => None end)).
Proof.
  destruct (safe_request_run method u data s) as (s0 & Hpause & _ & Hrun).
  exists s0. split; [done |]. intros w outcome Hsession.
  rewrite Hrun, Hsession. by destruct outcome.
Qed.

(** X7. A call of [test_authentication] that is not refused records one
    more attempt for the account of the username, and for no other account,
    before it goes to the network: the attempt counts whether the login
    succeeds, fails, or every request raises. *)
Theorem test_authentication_records_attempt (user pass : string) (s : State) :
  user <> "" ->
  attempts_of (md5_hexdigest user) s < 3 ->
  exists s' hit,
    test_authentication user pass s = (s', Ok hit)
    /\ attempts_of (md5_hexdigest user) s' = attempts_of (md5_hexdigest user) s + 1
    /\ forall h, h <> md5_hexdigest user -> attempts_of h s' = attempts_of h s.
Proof.
  intros Huser Hfree.
  destruct (test_authentication_effect user pass s)
    as (s' & hit & events & Hrun & _ & _ & [(_ & _ & _ & [Hempty | Hfull]) | (_ & _ & Hins)]);
    [done | lia |].
  exists s', hit. split; [done |]. split.
  - rewrite (attempts_of_insert _ _ _ _ _ Hins). by rewrite decide_True.
  - intros h Hh. rewrite (attempts_of_insert _ h _ _ _ Hins). by rewrite decide_False.
Qed.

Lemma returns_test_common_credentials : returns test_common_credentials.
Proof.
  unfold test_common_credentials.
  induction test_credentials as [| creds rest IH]; cbn [test_common_credentials_from].
  - apply returns_ret.
  - apply returns_bind; [apply returns_pause | intros _].
    apply returns_bind; [apply returns_test_authentication | intros [|]];
      [apply returns_ret | apply IH].
Qed.

Lemma returns_test_sql_injection_auth_bypass : returns test_sql_injection_auth_bypass.
Proof.
  unfold test_sql_injection_auth_bypass.
  induction sql_injection_payloads as [| payload rest IH]; cbn [test_sql_injection_from].
  - apply returns_ret.
  - apply returns_bind; [apply returns_pause | intros _].
    apply returns_bind; [apply returns_test_authentication | intros [|]];
      [apply returns_ret | apply IH].
Qed.

(** X8. The checks that go through [test_authentication] alone never raise,
    whatever the session does: the weak-credentials check and the SQL
    injection check always return, and what the SQL injection check
    returns, if anything, is a Critical finding whose evidence names one of
    the payloads. *)
Theorem credential_checks_never_raise (s : State) :
  (exists s' found, test_common_credentials s = (s', Ok found))
  /\ exists s' found,
       test_sql_injection_auth_bypass s = (s', Ok found)
       /\ forall f, found = Some f ->
            severity f = Critical
            /\ exists payload, payload ∈ sql_injection_payloads
                 /\ f = sql_injection_finding payload.
Proof.
  split; [apply returns_test_common_credentials |].
  destruct (returns_test_sql_injection_auth_bypass s) as (s' & found & Hrun).
  exists s', found. split; [done |].
  assert (Hfinds : finds (fun f => severity f = Critical
                            /\ exists payload, payload ∈ sql_injection_payloads
                                 /\ f = sql_injection_finding payload)
                     test_sql_injection_auth_bypass).
  { unfold test_sql_injection_auth_bypass.
    assert (Hall : forall l, l ⊆ sql_injection_payloads ->
              finds (fun f => severity f = Critical
                       /\ exists payload, payload ∈ sql_injection_payloads
                            /\ f = sql_injection_finding payload)
                    (test_sql_injection_from l)).
    { induction l as [| payload rest IH]; intros Hsub; cbn [test_sql_injection_from].
      - apply finds_ret_none.
      - apply finds_bind. intros _. apply finds_bind. intros [|].
        + apply finds_ret_some. split; [done |]. exists payload. split; [| done].
          apply Hsub, list_elem_of_here.
        + apply IH. intros x Hx. by apply Hsub, list_elem_of_further. }
    by apply Hall. }
  specialize (Hfinds s). rewrite Hrun in Hfinds. by intros f ->.
Qed.

(** X9. How a login is judged once the login page came back with status 200
    and the posted form was answered with a status that is no error.  A body
    with "loginerrors" or "Invalid login" means failure even when the final
    URL or the body looks like the dashboard.  Without such a message, a
    final URL with "/my/" or a body with "Dashboard" or "My courses" means
    success, and the admin page is not asked for.  With neither, the admin
    page decides: success exactly when it is answered with status 200 and
    shows "Site administration"; a request that raises means failure. *)
Theorem login_verdict (user pass : string) (s : State) (w1 w2 : World)
    (page answer : Response) :
  user <> "" ->
  attempts_of (md5_hexdigest user) s < 3 ->
  session_request (world s) (safe_request_of GET login_url []) = (w1, inl page) ->
  status_code page = 200%Z ->
  session_request w1
    (safe_request_of POST login_url (login_data user pass (logintoken_of (text page))))
  = (w2, inl answer) ->
  ok answer = true ->
  (Py.contains "loginerrors" (text answer) || Py.contains "Invalid login" (text answer)
   = true ->
   snd (test_authentication user pass s) = Ok false)
  /\ (Py.contains "loginerrors" (text answer) || Py.contains "Invalid login" (text answer)
      = false ->
      (Py.contains "/my/" (url answer) || Py.contains "Dashboard" (text answer)
       || Py.contains "My courses" (text answer) = true ->
       snd (test_authentication user pass s) = Ok true)
      /\ (Py.contains "/my/" (url answer) || Py.contains "Dashboard" (text answer)
          || Py.contains "My courses" (text answer) = false ->
          forall w3 outcome,
            session_request w2 (safe_request_of GET admin_url []) = (w3, outcome) ->
            snd (test_authentication user pass s)
            = Ok (match outcome with
                  | inl admin_response =>
                      ok admin_response && (status_code admin_response =? 200)%Z
                      && Py.contains "Site administration" (text admin_response)
                  | inr _ => false
                  end))).
Proof.
  intros Huser Hfree Hpage Hstatus Hpost Hok.
  remember (snd (test_authentication user pass s)) as verdict eqn:Hverdict.
  unfold test_authentication in Hverdict.
  destruct (String.eqb_spec user "") as [? | _]; [done |].
  unfold bind at 1, get in Hverdict.
  destruct (Nat.leb_spec _max_attempts_per_account (attempts_of (md5_hexdigest user) s))
    as [Hfull | _]; [unfold _max_attempts_per_account in Hfull; lia |].
  unfold bind at 1, modify in Hverdict.
  set (s0 := set_login_attempts _ s) in Hverdict.
  assert (Hw0 : world s0 = world s) by done.
  (* the login page *)
  destruct (safe_request_run GET login_url [] s0) as (s1 & _ & _ & Hget).
  rewrite Hw0, Hpage in Hget.
  (* the posted form *)
  set (form := login_data user pass (logintoken_of (text page))) in *.
  set (s2 := sent (safe_request_of GET login_url []) w1 s1) in *.
  destruct (pause_world s2) as (s3 & Hpause & Hw3 & _).
  destruct (safe_request_run POST login_url form s3) as (s4 & _ & _ & Hform).
  rewrite Hw3 in Hform. cbn [s2 sent log_event set_world world] in Hform.
  rewrite Hpost in Hform.
  set (s5 := sent (safe_request_of POST login_url form) w2 s4) in *.
  assert (Hw5 : world s5 = w2) by done.
  assert (Hpage_ok : negb (ok page) || negb (status_code page =? 200)%Z = false).
  { unfold ok. by rewrite Hstatus. }
  unfold try_except, test_authentication_try, bind at 1 in Hverdict.
  rewrite Hget, Hpage_ok in Hverdict. unfold bind at 1 in Hverdict.
  rewrite Hpause in Hverdict.
  unfold bind at 1 in Hverdict. fold form in Hverdict.
  rewrite Hform, Hok in Hverdict. cbn [negb] in Hverdict.
  split.
  - intros Hfailed. by rewrite Hfailed in Hverdict.
  - intros Hfailed. rewrite Hfailed in Hverdict. split.
    + intros Hlanded. by rewrite Hlanded in Hverdict.
    + intros Hlanded w3 outcome Hadmin. rewrite Hlanded in Hverdict.
      destruct (safe_request_run GET admin_url [] s5) as (s6 & _ & _ & Hrun).
      rewrite Hw5, Hadmin in Hrun.
      unfold bind in Hverdict. rewrite Hrun in Hverdict. by destruct outcome.
Qed.

(** *** The guards of the checks *)

(** X10. When the OAuth2 page is answered with a status other than 200, or
    without "OAuth 2" in its body, the check ends there with no finding:
    one request was made, and a supplied version, vulnerable or not, plays
    no part. *)
Theorem oauth2_not_exposed_no_finding (s : State) (w : World) (page : Response) :
  session_request (world s) oauth_page_request = (w, inl page) ->
  status_code page <> 200%Z \/ Py.contains "OAuth 2" (text page) = false ->
  test_oauth2_bypass s = (sent oauth_page_request w s, Ok None).
Proof.
  intros Hpage Hguard.
  unfold test_oauth2_bypass, bind, session_get. fold oauth_page_request.
  rewrite (session_call_answered _ _ _ _ Hpage).
  destruct Hguard as [Hstatus | ->].
  - by destruct (Z.eqb_spec (status_code page) 200).
  - by rewrite orb_true_r.
Qed.

(** X11. Once the OAuth2 page has been answered the check cannot raise: an
    exception of any later request, in the exploitation steps, is swallowed
    and the check returns.  Whatever it returns as a finding is Critical
    and cites CVE-2023-46806. *)
Theorem oauth2_exploit_errors_swallowed (s : State) (w : World) (page : Response) :
  session_request (world s) oauth_page_request = (w, inl page) ->
  exists s' found,
    test_oauth2_bypass s = (s', Ok found)
    /\ forall f, found = Some f ->
         severity f = Critical /\ cve f = Some "CVE-2023-46806".
Proof.
  intros Hpage.
  set (P := fun f => severity f = Critical /\ cve f = Some "CVE-2023-46806").
  assert (Hreplay : forall state urls, finds P (oauth2_replay state urls)).
  { intros state urls. induction urls as [| callback_url rest IH]; cbn [oauth2_replay].
    - apply finds_ret_none.
    - apply finds_bind. intros _. apply finds_bind. intros _.
      apply finds_bind. intros admin_response.
      destruct (_ && _); [by apply finds_ret_some | apply IH]. }
  assert (Hexploit : exists s' found,
             try_except oauth2_exploit (fun _ => ret None)
               (sent oauth_page_request w s) = (s', Ok found)
             /\ forall f, found = Some f -> P f).
  { assert (Hfinds : finds P (try_except oauth2_exploit (fun _ => ret None))).
    { apply finds_try; [| intros e; apply finds_ret_none].
      unfold oauth2_exploit. apply finds_bind. intros response.
      destruct (Py.contains "state=" (url response)); [| apply finds_ret_none].
      destruct (_ !! _); [apply Hreplay | apply finds_ret_none]. }
    destruct (returns_try oauth2_exploit (fun _ => ret None)
                (fun e => returns_ret None) (sent oauth_page_request w s))
      as (s' & found & Hrun).
    exists s', found. split; [done |].
    specialize (Hfinds (sent oauth_page_request w s)). rewrite Hrun in Hfinds.
    by intros f ->. }
  unfold test_oauth2_bypass, bind, session_get. fold oauth_page_request.
  rewrite (session_call_answered _ _ _ _ Hpage).
  destruct (_ || _).
  { eexists _, None. by split. }
  destruct supplied_version as [version |]; [| exact Hexploit].
  destruct (vulnerable_version version); [| exact Hexploit].
  eexists _, _. split; [reflexivity |]. by intros f [= <-].
Qed.

(** X12. Without both a username and a password given to the tester, the
    session fixation check makes its one request for the login page and
    never returns a finding, whatever the cookies do. *)
Theorem session_fixation_needs_credentials (s : State) :
  Py.truthy (username self) && Py.truthy (password self) = false ->
  trace (fst (test_session_fixation s)) = (trace s ++ [Sent login_page_request])%list
  /\ forall f, snd (test_session_fixation s) <> Ok (Some f).
Proof.
  intros Hnone.
  assert (Hrun : exists w outcome,
             test_session_fixation s = (sent login_page_request w s, outcome)
             /\ forall f, outcome <> Ok (Some f)).
  { unfold test_session_fixation, bind at 1, session_get.
    fold login_page_request. unfold session_call.
    destruct (session_request (world s) login_page_request) as [w [page | e]];
      [| by eexists _, _].
    destruct (negb (status_code page =? 200)%Z); [by eexists _, _ |].
    unfold bind, moodle_session, get. cbn [world log_event set_world].
    destruct (session_cookies w !! "MoodleSession"); [| by eexists _, _].
    rewrite Hnone. by eexists _, _. }
  destruct Hrun as (w & outcome & -> & Hnever). by split.
Qed.

(** With every posted form answered by the generic message, the loop over
    the usernames finds nothing. *)
Lemma reset_enumeration_generic token l :
  (forall w r, req_method r = POST ->
     exists w' response,
       session_request w r = (w', inl response)
       /\ Py.contains "If the username and email address match" (text response) = true) ->
  forall s, exists s', reset_enumeration token l s = (s', Ok None).
Proof.
  intros Hgeneric. induction l as [| user rest IH]; intros s.
  { by exists s. }
  cbn [reset_enumeration]. unfold bind at 1.
  destruct (pause_world s) as (s0 & -> & _).
  unfold bind at 1, session_post.
  match goal with |- context [session_call ?r s0] =>
    destruct (Hgeneric (world s0) r eq_refl) as (w' & response & Hsession & Hbody);
    rewrite (session_call_answered r s0 w' response Hsession)
  end.
  rewrite Hbody. apply IH.
Qed.

(** X13. The generic message wins.  On a site that answers every posted
    reset form with "If the username and email address match" in the body,
    the password reset check reports no user enumeration, even if the same
    body also holds one of the two telltale phrases: the only finding it
    can return is the Host header injection one. *)
Theorem password_reset_generic_message_is_safe (s : State) :
  (forall w r, req_method r = POST ->
     exists w' response,
       session_request w r = (w', inl response)
       /\ Py.contains "If the username and email address match" (text response) = true) ->
  match snd (test_password_reset_vulnerability s) with
  | Ok (Some f) => f = reset_host_header_finding
  | _ => True
  end.
Proof.
  intros Hgeneric. unfold test_password_reset_vulnerability, bind at 1.
  destruct (session_get reset_url [] [] s) as [s1 [response | e]]; [| done].
  destruct (_ || _); [done |].
  unfold bind at 1.
  destruct (reset_enumeration_generic (logintoken_of (text response)) test_usernames
              Hgeneric s1) as (s2 & ->).
  unfold bind at 1. destruct (pause_world s2) as (s3 & -> & _).
  unfold bind, session_post.
  match goal with |- context [session_call ?r s3] =>
    destruct (Hgeneric (world s3) r eq_refl) as (w' & answer & Hsession & _);
    rewrite (session_call_answered r s3 w' answer Hsession)
  end.
  by destruct (Py.contains "attacker.com" (text answer)).
Qed.

(** *** The Host header check *)

(** X14. On a target whose answer depends on the request alone, the Host
    header check returns the finding for the first header of its list, in
    the order of the list, that opens the admin page (status 200 and "Site
    administration" in the body), and no finding when none does. *)
Theorem host_header_first_open (serve : Request -> Response) (s : State) :
  (forall w r, exists w', session_request w r = (w', inl (serve r))) ->
  snd (test_host_header_auth_bypass s)
  = Ok (host_header_finding
          <$> List.find
                (fun header =>
                   (status_code (serve (mkRequest GET admin_url [] [] [header]
                                          (timeout self) None)) =? 200)%Z
                   && Py.contains "Site administration"
                        (text (serve (mkRequest GET admin_url [] [] [header]
                                        (timeout self) None))))
                test_headers).
Proof.
  intros Hserve. unfold test_host_header_auth_bypass. revert s.
  induction test_headers as [| header rest IH]; intros s; [done |].
  cbn [test_host_header_from List.find]. unfold bind at 1.
  destruct (pause_world s) as (s0 & -> & _).
  unfold bind, session_get.
  match goal with |- context [session_call ?r s0] =>
    destruct (Hserve (world s0) r) as (w' & Hsession);
    rewrite (session_call_answered r s0 w' _ Hsession)
  end.
  destruct (_ && _); [done | apply IH].
Qed.

End Tester.

(** ** Runs on scripted sessions *)

Abbreviation start := (fresh Script.World []).

Abbreviation script_authentication srv self :=
  (test_authentication Script.World (Script.request srv) Script.digest
     Script.find_input self).

Abbreviation script_common_credentials srv self :=
  (test_common_credentials Script.World (Script.request srv) Script.digest
     Script.find_input self).

Abbreviation script_oauth2 srv self :=
  (test_oauth2_bypass Script.World (Script.request srv) Script.parse_qs_query
     Script.quote_json_state self).

Abbreviation script_host_header srv self :=
  (test_host_header_auth_bypass Script.World (Script.request srv) self).

Abbreviation script_csrf srv self :=
  (test_csrf_token_weaknesses Script.World (Script.request srv)
     Script.find_input self).

Abbreviation script_session_fixation srv jar self :=
  (test_session_fixation Script.World (Script.request srv) jar
     Script.find_input self).

Abbreviation script_run_tests srv jar self :=
  (run_tests Script.World (Script.request srv) jar Script.digest
     Script.find_input Script.parse_qs_query Script.quote_json_state self).

(** The state after three logins as "admin" on a site that lets everyone in. *)
Abbreviation three_admin_logins :=
  (fst (script_authentication Script.open_door (Script.anonymous 0) "admin" "third"
    (fst (script_authentication Script.open_door (Script.anonymous 0) "admin" "second"
      (fst (script_authentication Script.open_door (Script.anonymous 0) "admin" "first"
         start)))))).

(** Three logins went through; the fourth call is refused on a site that
    would have let it in. *)
Lemma test_authentication_refuses_witness :
  snd (script_authentication Script.open_door (Script.anonymous 0) "admin" "first" start)
  = Ok true
  /\ attempts_of Script.World (Script.digest "admin") three_admin_logins = 3
  /\ script_authentication Script.open_door (Script.anonymous 0) "admin" "fourth"
       three_admin_logins
     = (three_admin_logins, Ok false).
Proof.
  split; [by vm_compute |]. split; [by vm_compute |].
  apply (test_authentication_refuses Script.World (Script.request Script.open_door)
           Script.digest Script.find_input (Script.anonymous 0) "admin" "fourth"
           three_admin_logins).
  right. by vm_compute.
Defined.

(** The empty username is refused on a fresh instance. *)
Example test_authentication_empty_username :
  script_authentication Script.open_door (Script.anonymous 0) "" "secret" start
  = (start, Ok false).
Proof. reflexivity. Qed.

(** With every request timing out the run still ends in a report. *)
Example run_tests_on_unreachable_site :
  snd (script_run_tests Script.unreachable Script.no_cookies (Script.anonymous 0) start)
  = Ok (mkReport [] [testing_error_note (Timeout "timed out")]).
Proof. by vm_compute. Qed.

(** C3, as stated, fails: a run cut short by an exception nobody expected
    reports no vulnerability and carries no note that nothing was found. *)
Lemma run_tests_error_report_lacks_note :
  exists report,
    snd (script_run_tests (Script.oauth_raising (OtherException "codec can't encode"))
           Script.no_cookies (Script.anonymous 0) start)
    = Ok report
    /\ vulnerabilities report = []
    /\ no_vulnerabilities_note ∉ info report.
Proof.
  exists (mkReport [] [testing_error_note (OtherException "codec can't encode")]).
  split; [by vm_compute |]. split; [done |].
  cbn [info]. rewrite list_elem_of_singleton. discriminate.
Qed.

(** C2, what the code does.  The OAuth2 page refusing the connection ends
    the run: the report holds the error note alone, and the admin page was
    never asked for, although the Host header check, run on the same site,
    finds it open; with the OAuth2 page merely missing the run reports that
    finding. *)
Theorem run_tests_stops_at_oauth_failure :
  script_oauth2 Script.oauth_refused (Script.anonymous 0) start
  = (sent Script.World (oauth_page_request (Script.anonymous 0))
       [oauth_page_request (Script.anonymous 0)] start,
     Raise (ConnectionError "connection refused"))
  /\ snd (script_run_tests Script.oauth_refused Script.no_cookies (Script.anonymous 0) start)
     = Ok (mkReport [] [testing_error_note (ConnectionError "connection refused")])
  /\ Forall (fun e => match e with
                      | Sent r => req_url r <> admin_url (Script.anonymous 0)
                      | Sleep _ => True
                      end)
       (trace Script.World
          (fst (script_run_tests Script.oauth_refused Script.no_cookies
                  (Script.anonymous 0) start)))
  /\ snd (script_host_header Script.oauth_refused (Script.anonymous 0) start)
     = Ok (Some (host_header_finding ("Host", "localhost")))
  /\ snd (script_run_tests Script.oauth_missing Script.no_cookies (Script.anonymous 0) start)
     = Ok (mkReport [host_header_finding ("Host", "localhost")] []).
Proof.
  split; [by vm_compute |]. split; [by vm_compute |].
  split; [| split; by vm_compute].
  vm_compute. repeat constructor; discriminate.
Qed.

(** With a delay of two seconds the CSRF check fetches the login page
    at once, and sleeps only before the form it posts. *)
Example csrf_trace_with_delay :
  trace Script.World
    (fst (script_csrf (Script.login_page "<input logintoken=abcdefghijklmnopqrstuvwxy"
                                         "Invalid token")
            (Script.anonymous 2) start))
  = [ Sent (login_page_request (Script.anonymous 2));
      Sleep 2;
      Sent (login_post_request (Script.anonymous 2) "admin" "wrongpassword" "") ].
Proof. by vm_compute. Qed.

(** Version "4.1.3" on a site with OAuth2 switched on. *)
Lemma oauth2_version_short_circuit_witness :
  exists finding,
    script_oauth2 Script.oauth_enabled (Script.with_version "4.1.3") start
    = (sent Script.World (oauth_page_request (Script.with_version "4.1.3"))
         [oauth_page_request (Script.with_version "4.1.3")] start,
       Ok (Some finding))
    /\ severity finding = Critical
    /\ cve finding = Some "CVE-2023-46806".
Proof.
  destruct (oauth2_version_short_circuit Script.World
              (Script.request Script.oauth_enabled) Script.parse_qs_query
              Script.quote_json_state (Script.with_version "4.1.3") start
              {[ "version" := "4.1.3" ]} "4.1.3"
              [oauth_page_request (Script.with_version "4.1.3")]
              (mkResponse 200 "Log in with an OAuth 2 service"
                 (Script.base +:+ "/auth/oauth2/login.php")))
    as (finding & Hrun & Hseverity & Hcve & _);
    [ reflexivity | by vm_compute | reflexivity | reflexivity | reflexivity | reflexivity | ].
  exists finding. by rewrite Hrun.
Defined.

(** Version "4.2.5" is outside the range, and a missing OAuth2 page ends the
    check with no finding. *)
Example oauth2_not_exposed :
  snd (script_oauth2 Script.oauth_missing (Script.with_version "4.2.5") start) = Ok None.
Proof. by vm_compute. Qed.

(** The three outcomes of the CSRF check that produce a finding or none
    after the page was fetched: a token of length 10, a token of length 25
    with the empty-token login rejected, and no token field. *)
Lemma csrf_first_applicable_condition_witness :
  snd (script_csrf (Script.login_page "<input logintoken=abcdefghij" "Invalid token")
         (Script.anonymous 0) start)
  = Ok (Some (weak_csrf_finding "abcdefghij"))
  /\ evidence (weak_csrf_finding "abcdefghij")
     = Some "Login token length is only 10 characters."
  /\ snd (script_csrf (Script.login_page "<input logintoken=abcdefghijklmnopqrstuvwxy"
                                         "Invalid token, username not checked")
            (Script.anonymous 0) start)
     = Ok None
  /\ snd (script_csrf (Script.login_page "Log in to the site" "username or password wrong")
            (Script.anonymous 0) start)
     = Ok (Some missing_csrf_finding).
Proof.
  split; [| split; [reflexivity | split]].
  - destruct (csrf_first_applicable_condition Script.World
                (Script.request (Script.login_page "<input logintoken=abcdefghij"
                                                   "Invalid token"))
                Script.find_input (Script.anonymous 0) start
                [login_page_request (Script.anonymous 0)]
                (mkResponse 200 "<input logintoken=abcdefghij"
                   (Script.base +:+ "/login/index.php"))
                eq_refl eq_refl) as (_ & Hweak & _).
    rewrite (Hweak {[ "value" := "abcdefghij" ]}); [done | by vm_compute |].
    vm_compute. lia.
  - destruct (csrf_first_applicable_condition Script.World
                (Script.request (Script.login_page
                                   "<input logintoken=abcdefghijklmnopqrstuvwxy"
                                   "Invalid token, username not checked"))
                Script.find_input (Script.anonymous 0) start
                [login_page_request (Script.anonymous 0)]
                (mkResponse 200 "<input logintoken=abcdefghijklmnopqrstuvwxy"
                   (Script.base +:+ "/login/index.php"))
                eq_refl eq_refl) as (_ & _ & Hposted & _).
    rewrite (Hposted {[ "value" := "abcdefghijklmnopqrstuvwxy" ]}
               [ login_page_request (Script.anonymous 0);
                 login_post_request (Script.anonymous 0) "admin" "wrongpassword" "" ]
               (mkResponse 200 "Invalid token, username not checked"
                  (Script.base +:+ "/login/index.php")));
      [done | by vm_compute | vm_compute; lia | reflexivity].
  - destruct (csrf_first_applicable_condition Script.World
                (Script.request (Script.login_page "Log in to the site"
                                                   "username or password wrong"))
                Script.find_input (Script.anonymous 0) start
                [login_page_request (Script.anonymous 0)]
                (mkResponse 200 "Log in to the site"
                   (Script.base +:+ "/login/index.php"))
                eq_refl eq_refl) as (Hmissing & _).
    by rewrite Hmissing.
Defined.

(** Cookie "abc123" before and after a successful login: the finding.
    Cookie renewed to "xyz789" by the login: none. *)
Lemma session_fixation_verdict_witness :
  snd (script_session_fixation Script.open_door Script.fixed_cookie
         (Script.with_credentials "alice" "secret") start)
  = Ok (Some (session_fixation_finding "abc123"))
  /\ snd (script_session_fixation Script.open_door Script.renewed_cookie
            (Script.with_credentials "alice" "secret") start)
     = Ok None.
Proof.
  split.
  - destruct (session_fixation_verdict Script.World (Script.request Script.open_door)
                Script.fixed_cookie Script.find_input
                (Script.with_credentials "alice" "secret") start
                [login_page_request (Script.with_credentials "alice" "secret")]
                [login_page_request (Script.with_credentials "alice" "secret");
                 login_post_request (Script.with_credentials "alice" "secret")
                   "alice" "secret" ""]
                (mkResponse 200 "Log in to the site" (Script.base +:+ "/login/index.php"))
                (mkResponse 200 "Dashboard" (Script.base +:+ "/my/"))
                "abc123" "alice" "secret")
      as (Hsame & _);
      [ reflexivity | reflexivity | by vm_compute | reflexivity | discriminate
      | reflexivity | discriminate | reflexivity | reflexivity | ].
    apply Hsame. by vm_compute.
  - destruct (session_fixation_verdict Script.World (Script.request Script.open_door)
                Script.renewed_cookie Script.find_input
                (Script.with_credentials "alice" "secret") start
                [login_page_request (Script.with_credentials "alice" "secret")]
                [login_page_request (Script.with_credentials "alice" "secret");
                 login_post_request (Script.with_credentials "alice" "secret")
                   "alice" "secret" ""]
                (mkResponse 200 "Log in to the site" (Script.base +:+ "/login/index.php"))
                (mkResponse 200 "Dashboard" (Script.base +:+ "/my/"))
                "abc123" "alice" "secret")
      as (_ & Hrenewed & _);
      [ reflexivity | reflexivity | by vm_compute | reflexivity | discriminate
      | reflexivity | discriminate | reflexivity | reflexivity | ].
    apply Hrenewed. vm_compute. discriminate.
Defined.

(** C6, as stated, fails.  On a site whose only working account is
    admin/moodle that entry would authenticate and none before it would,
    yet the check returns none. *)
Lemma common_credentials_misses_working_entry :
  ~ (forall (srv : Script.Server) (pre post : list Credentials) (creds : Credentials),
       test_credentials = (pre ++ creds :: post)%list ->
       snd (script_authentication srv (Script.anonymous 0)
              (cred_username creds) (cred_password creds) start) = Ok true ->
       Forall (fun c => snd (script_authentication srv (Script.anonymous 0)
                               (cred_username c) (cred_password c) start) <> Ok true)
              pre ->
       snd (script_common_credentials srv (Script.anonymous 0) start)
       = Ok (Some creds)).
Proof.
  intros Hclaim.
  specialize (Hclaim Script.only_admin_moodle (take 3 test_credentials)
                (drop 4 test_credentials)
                (mkCredentials "admin" "moodle" "product name as password")
                eq_refl).
  assert (Hnone : snd (script_common_credentials Script.only_admin_moodle
                         (Script.anonymous 0) start) = Ok None)
    by (by vm_compute).
  rewrite Hnone in Hclaim.
  assert (Habsurd : @Ok (option Credentials) None
                    = Ok (Some (mkCredentials "admin" "moodle" "product name as password")));
    [| discriminate Habsurd].
  apply Hclaim; [by vm_compute |].
  repeat constructor; vm_compute; discriminate.
Qed.

(** On that site the forms posted are those of the first three entries for
    "admin" and of "guest". *)
Example common_credentials_posted_forms :
  omap (fun e => match e with
                 | Sent r => match req_method r with
                             | POST => Some (Script.field "username" r,
                                             Script.field "password" r)
                             | GET => None
                             end
                 | Sleep _ => None
                 end)
       (trace Script.World
          (fst (script_common_credentials Script.only_admin_moodle
                  (Script.anonymous 0) start)))
  = [ ("admin", "admin"); ("admin", "password"); ("admin", "Password123");
      ("guest", "") ].
Proof. by vm_compute. Qed.

(** ** More runs on scripted sessions *)

Abbreviation script_password_reset srv self :=
  (test_password_reset_vulnerability Script.World (Script.request srv)
     Script.find_input self).

(** A run with the credentials admin/admin on a site that refuses them:
    four attempts are asked for the account, three are made. *)
Lemma run_tests_keeps_attempt_limit_witness :
  within_limit Script.World
    (fst (script_run_tests Script.only_admin_moodle Script.no_cookies
            (Script.with_credentials "admin" "admin") start))
  /\ attempts_of Script.World (Script.digest "admin")
       (fst (script_run_tests Script.only_admin_moodle Script.no_cookies
               (Script.with_credentials "admin" "admin") start))
     = 3.
Proof.
  split; [| by vm_compute].
  apply run_tests_keeps_attempt_limit.
  intros h. rewrite attempts_of_fresh. unfold _max_attempts_per_account. lia.
Defined.

(** An attempt on a site that cannot be reached still counts. *)
Lemma test_authentication_records_attempt_witness :
  exists s' hit,
    script_authentication Script.unreachable (Script.anonymous 0) "admin" "admin" start
    = (s', Ok hit)
    /\ attempts_of Script.World (Script.digest "admin") s'
       = attempts_of Script.World (Script.digest "admin") start + 1
    /\ forall h, h <> Script.digest "admin" ->
         attempts_of Script.World h s' = attempts_of Script.World h start.
Proof.
  apply test_authentication_records_attempt; [discriminate |].
  rewrite attempts_of_fresh. lia.
Defined.

(** A login that lands on the dashboard. *)
Lemma login_verdict_witness :
  snd (script_authentication Script.open_door (Script.anonymous 0) "admin" "secret" start)
  = Ok true.
Proof.
  edestruct (login_verdict Script.World (Script.request Script.open_door)
               Script.digest Script.find_input (Script.anonymous 0)
               "admin" "secret" start) as (_ & Hjudged);
    [ discriminate | rewrite attempts_of_fresh; lia
    | reflexivity | reflexivity | reflexivity | reflexivity | ].
  destruct (Hjudged eq_refl) as (Hlanded & _). exact (Hlanded eq_refl).
Defined.

(** A vulnerable version with the OAuth2 page missing: no finding. *)
Lemma oauth2_not_exposed_no_finding_witness :
  snd (script_oauth2 Script.oauth_missing (Script.with_version "4.1.3") start) = Ok None.
Proof.
  erewrite (oauth2_not_exposed_no_finding Script.World
              (Script.request Script.oauth_missing) Script.parse_qs_query
              Script.quote_json_state (Script.with_version "4.1.3") start);
    [reflexivity | reflexivity | left; discriminate].
Defined.

(** The OAuth2 page is shown and every later request times out: the check
    returns. *)
Lemma oauth2_exploit_errors_swallowed_witness :
  exists s' found,
    script_oauth2 Script.oauth_then_down (Script.anonymous 0) start = (s', Ok found)
    /\ forall f, found = Some f ->
         severity f = Critical /\ cve f = Some "CVE-2023-46806".
Proof.
  eapply oauth2_exploit_errors_swallowed. reflexivity.
Defined.

Example oauth2_exploit_timeout_gives_no_finding :
  snd (script_oauth2 Script.oauth_then_down (Script.anonymous 0) start) = Ok None.
Proof. by vm_compute. Qed.

(** No credentials, a login that would go through and a cookie that never
    changes: one request and no finding. *)
Lemma session_fixation_needs_credentials_witness :
  trace Script.World
    (fst (script_session_fixation Script.open_door Script.fixed_cookie
            (Script.anonymous 0) start))
  = [Sent (login_page_request (Script.anonymous 0))]
  /\ forall f,
       snd (script_session_fixation Script.open_door Script.fixed_cookie
              (Script.anonymous 0) start) <> Ok (Some f).
Proof.
  apply (session_fixation_needs_credentials Script.World
           (Script.request Script.open_door) Script.fixed_cookie Script.find_input
           (Script.anonymous 0) start).
  reflexivity.
Defined.

(** The generic message beside "No users have that username". *)
Lemma password_reset_generic_message_is_safe_witness :
  match snd (script_password_reset Script.generic_reset (Script.anonymous 0) start) with
  | Ok (Some f) => f = reset_host_header_finding
  | _ => True
  end.
Proof.
  apply (password_reset_generic_message_is_safe Script.World
           (Script.request Script.generic_reset) Script.find_input
           (Script.anonymous 0) start).
  intros w r Hpost. unfold Script.request, Script.generic_reset. rewrite Hpost.
  eexists _, _. split; [reflexivity |]. reflexivity.
Defined.

Example password_reset_reports_host_header_only :
  snd (script_password_reset Script.generic_reset (Script.anonymous 0) start)
  = Ok (Some reset_host_header_finding).
Proof. by vm_compute. Qed.

(** The third header of the list is the first that opens the admin page. *)
Lemma host_header_first_open_witness :
  snd (script_host_header (fun _ r => inl (Script.trusts_forwarded_host r))
         (Script.anonymous 0) start)
  = Ok (Some (host_header_finding ("X-Forwarded-Host", "localhost"))).
Proof.
  rewrite (host_header_first_open Script.World
             (Script.request (fun _ r => inl (Script.trusts_forwarded_host r)))
             (Script.anonymous 0) Script.trusts_forwarded_host start);
    [reflexivity |].
  intros w r. by eexists.
Defined.

